(** * drone_flightplan: sampling a DEM raster at points

    A shallow embedding of [src/drone_flightplan/sampleRasterAtPoints.py]:
    the two sampling functions [sampleRasterFromPointsList] and
    [rasterValuesAtPoints], the CSV sink [gridWithElevation2csv], and the
    program under [__main__] that chains the last two.

    Conventions of the embedding:
    - a Python [float] holding a coordinate is an exact rational ([Q]);
      the rounding of the geospatial library's double arithmetic is not
      modelled, and coordinates are finite;
    - [math.floor] is [Qfloor];
    - raw pixel buffers are [list byte];
    - an uncaught Python exception is a value of [error], named after the
      failure it reports; the console diagnostics ([print]) are left out
      except where evaluating their argument can raise;
    - the geospatial library (GDAL, OGR, OSR) runs as the source leaves
      it, without [UseExceptions]: a call that fails returns [None], and
      the exception is raised by the first use of that [None];
    - opening files for writing succeeds (I/O failures are not modelled);
    - the calls into the raster library that a run performs are recorded
      in a trace of [event]s, so that "what was read, and when" can be
      stated. *)

From Stdlib Require Import ZArith QArith Qround Qabs Qminmax Qpower Lia Bool.
From Stdlib Require Import Strings.Byte Ascii String DecimalString.
From stdpp Require Import base option list strings gmap.

Local Open Scope Z_scope.

(** ** Python values found in rows *)

(** A Python [float]: finite values are exact rationals; negative
    zero, the two infinities and NaN only arise from decoding a binary32
    pixel. *)
Inductive pyfloat : Type :=
  | Finite (q : Q)
  | NegZero
  | Infinity (negative : bool)
  | NaN.

(** The values a row holds: [int]s and [float]s. *)
Inductive pyval : Type :=
  | PyInt (z : Z)
  | PyFloat (f : pyfloat).

Definition row : Type := list pyval.

(** ** [math.floor] *)

Definition math_floor (q : Q) : Z := Qfloor q.

(** ** [struct.unpack] *)

Inductive byteorder : Type := LittleEndian | BigEndian.

Definition byte_val (b : byte) : Z := Z.of_N (Byte.to_N b).

(** Two's-complement reading of a [w]-bit unsigned value. *)
Definition to_signed (w : Z) (u : Z) : Z :=
  if Z.testbit u (w - 1) then u - Z.shiftl 1 w else u.

(** Format ["<h"]: a signed 16-bit integer, least significant byte
    first. *)
Definition int16_le (b0 b1 : byte) : Z :=
  to_signed 16 (Z.lor (byte_val b0) (Z.shiftl (byte_val b1) 8)).

(** The 32-bit word held by four bytes in the given byte order. *)
Definition word32 (bo : byteorder) (b0 b1 b2 b3 : byte) : Z :=
  let w lo ml mh hi :=
    Z.lor (Z.lor (byte_val lo) (Z.shiftl (byte_val ml) 8))
          (Z.lor (Z.shiftl (byte_val mh) 16) (Z.shiftl (byte_val hi) 24)) in
  match bo with
  | LittleEndian => w b0 b1 b2 b3
  | BigEndian => w b3 b2 b1 b0
  end.

(** The value of an IEEE 754 binary32 bit pattern: 1 sign bit, 8 exponent
    bits (bias 127), 23 fraction bits.  Python widens it to a double,
    which is exact.  The pattern with only the sign bit set is negative
    zero. *)
Definition binary32_value (bits : Z) : pyfloat :=
  let sign := Z.testbit bits 31 in
  let e := Z.land (Z.shiftr bits 23) 255 in
  let m := Z.land bits 8388607 in
  let signed (q : Q) := if sign then Qopp q else q in
  if e =? 255 then (if m =? 0 then Infinity sign else NaN)
  else if e =? 0 then
    (if (m =? 0) && sign then NegZero
     else Finite (Qred (signed (inject_Z m * Qpower 2 (-149))%Q)))
  else Finite (Qred (signed (inject_Z (8388608 + m) * Qpower 2 (e - 150))%Q)).

(** The value that IEEE 754 gives a binary32 bit pattern, stated with
    division and remainder instead of bit operations: sign [s], biased
    exponent [e] and fraction [m]; a finite value is fixed by an equation
    between integers scaled by a power of two, and is in lowest terms. *)
Definition binary32_denotes (bits : Z) (v : pyfloat) : Prop :=
  let s := bits / 2 ^ 31 in
  let e := (bits / 2 ^ 23) mod 2 ^ 8 in
  let m := bits mod 2 ^ 23 in
  let sgn := if s =? 1 then -1 else 1 in
  match v with
  | Finite q =>
      e < 255 /\ ~ (s = 1 /\ e = 0 /\ m = 0) /\ Qred q = q /\
      if e =? 0
      then (q * inject_Z (2 ^ 149) == inject_Z (sgn * m))%Q
      else (q * inject_Z (2 ^ 150) == inject_Z (sgn * (2 ^ 23 + m) * 2 ^ e))%Q
  | NegZero => s = 1 /\ e = 0 /\ m = 0
  | Infinity negative => e = 255 /\ m = 0 /\ negative = (s =? 1)
  | NaN => e = 255 /\ m <> 0
  end.

(** Uncaught exceptions, named after the failure they report.  The
    constructor comments give the Python exception that realises each. *)
Inductive error : Type :=
  | RasterOpenError          (* [gdal.Open] gave [None]: AttributeError on [r.GetProjection] / [band.DataType] *)
  | TransformInversionError  (* [reverse] is [None]: TypeError in [gdal.ApplyGeoTransform] *)
  | VectorOpenError          (* [ogr.Open] gave [None]: AttributeError on [p.GetLayer] *)
  | MissingCRSError          (* [lyr.GetSpatialRef()] gave [None]: AttributeError on [pointSR.GetName] *)
  | PixelReadError           (* [band.ReadRaster] gave [None]: TypeError in [struct.unpack] *)
  | StructError.             (* [struct.error]: the buffer has the wrong size for the format *)

(** [struct.unpack("<h", elevationstruct)[0]]. *)
Definition struct_unpack_h (elevationstruct : option (list byte)) : error + Z :=
  match elevationstruct with
  | None => inl PixelReadError
  | Some [b0; b1] => inr (int16_le b0 b1)
  | Some _ => inl StructError
  end.

(** [struct.unpack("f", elevationstruct)[0]]: format ["f"] without a
    prefix reads a binary32 in the byte order of the host. *)
Definition struct_unpack_f (host : byteorder) (elevationstruct : option (list byte))
  : error + pyfloat :=
  match elevationstruct with
  | None => inl PixelReadError
  | Some [b0; b1; b2; b3] => inr (binary32_value (word32 host b0 b1 b2 b3))
  | Some _ => inl StructError
  end.

(** ** Affine geotransforms (GDAL) *)

(** The six coefficients of a geotransform, [gt[0]] to [gt[5]]. *)
Record GeoTransform : Type := mkGT
  { gt0 : Q; gt1 : Q; gt2 : Q; gt3 : Q; gt4 : Q; gt5 : Q }.

(** [gdal.InvGeoTransform]: GDAL's [GDALInvGeoTransform].  The Python
    binding returns the inverse as a 6-tuple, or [None] (without raising)
    when the transform cannot be inverted.  The coefficients are given
    here in exact arithmetic; GDAL rounds each operation to a double. *)
Definition InvGeoTransform (gt_in : GeoTransform) : option GeoTransform :=
  let '(mkGT g0 g1 g2 g3 g4 g5) := gt_in in
  if Qeq_bool g2 0 && Qeq_bool g4 0
     && negb (Qeq_bool g1 0) && negb (Qeq_bool g5 0)
  then Some (mkGT (- g0 / g1) (1 / g1) 0 (- g3 / g5) 0 (1 / g5))%Q
  else
    let det := (g1 * g5 - g2 * g4)%Q in
    let magnitude :=
      Qmax (Qmax (Qabs g1) (Qabs g2)) (Qmax (Qabs g4) (Qabs g5)) in
    if Qle_bool (Qabs det) ((1 # 10000000000) * magnitude * magnitude)%Q
    then None
    else
      let inv_det := (1 / det)%Q in
      Some (mkGT ((g2 * g3 - g0 * g5) * inv_det)
                 (g5 * inv_det)
                 (- g2 * inv_det)
                 ((- g1 * g3 + g0 * g4) * inv_det)
                 (- g4 * inv_det)
                 (g1 * inv_det))%Q.

(** The affine map of a geotransform, GDAL's [GDALApplyGeoTransform],
    in exact arithmetic; GDAL rounds each operation to a double. *)
Definition affine (gt : GeoTransform) (x y : Q) : Q * Q :=
  ((gt0 gt + x * gt1 gt + y * gt2 gt)%Q, (gt3 gt + x * gt4 gt + y * gt5 gt)%Q).

(** [gdal.ApplyGeoTransform(gt, x, y)]: the binding raises a TypeError
    when [gt] is not a sequence of six numbers, as when it is [None]. *)
Definition ApplyGeoTransform (gt : option GeoTransform) (x y : Q) : error + (Q * Q) :=
  match gt with
  | None => inl TransformInversionError
  | Some gt => inr (affine gt x y)
  end.

(** ** Rasters and vector layers *)

(** Band 1 of a raster: its size in pixels and the raw bytes of each
    pixel, in the byte order of the host. *)
Record Band : Type := mkBand
  { XSize : Z; YSize : Z; pixel_bytes : Z -> Z -> list byte }.

(** [band.ReadRaster(xoff, yoff, 1, 1)]: the bytes of one pixel, or [None]
    when the 1x1 window is not inside the raster. *)
Definition ReadRaster (band : Band) (xoff yoff : Z) : option (list byte) :=
  if (0 <=? xoff) && (xoff + 1 <=? XSize band)
     && (0 <=? yoff) && (yoff + 1 <=? YSize band)
  then Some (pixel_bytes band xoff yoff)
  else None.

Record Dataset : Type := mkDataset
  { GetProjection : string; GetGeoTransform : GeoTransform; bands : list Band }.

(** [r.GetRasterBand(n)]: bands are numbered from 1. *)
Definition GetRasterBand (r : Dataset) (n : nat) : option Band :=
  match n with
  | O => None
  | S i => bands r !! i
  end.

(** The point geometry of a vector feature. *)
Record Feature : Type := mkFeature { GetX : Q; GetY : Q }.

(** An input point [[index, x, y]] of the list-based entry point. *)
Record PointItem : Type := mkPoint { feature0 : pyval; feature1 : Q; feature2 : Q }.

(** The elements of the 3-tuple that [TransformPoint] returns. *)
Definition item0 (t : Q * Q * Q) : Q := fst (fst t).
Definition item1 (t : Q * Q * Q) : Q := snd (fst t).

(** ** Runs: a trace of library calls and an outcome *)

Inductive event : Type :=
  | TransformPoint (x y : Q)
  | ReadRasterAt (pixX pixY : Z).

Definition M (A : Type) : Type := list event * (error + A).

Definition ret {A} (a : A) : M A := ([], inr a).

Definition bind {A B} (m : M A) (k : A -> M B) : M B :=
  match m with
  | (tr, inl e) => (tr, inl e)
  | (tr, inr a) => (tr ++ fst (k a), snd (k a))
  end.

Definition emit (ev : event) : M unit := ([ev], inr tt).

(** A pure step that may raise. *)
Definition lift {A} (r : error + A) : M A := ([], r).

(** Attribute access on an object that may be [None]. *)
Definition attr {A} (e : error) (o : option A) : M A :=
  match o with
  | None => lift (inl e)
  | Some a => ret a
  end.

Notation "'let*' x ':=' m 'in' k" := (bind m (fun x => k))
  (at level 10, x name, m at level 100, k at level 200).

(** [for feature in items: points.append(body(feature))], then
    [return points]. *)
Fixpoint for_each {A} (body : A -> M row) (items : list A) (points : list row)
  : M (list row) :=
  match items with
  | [] => ret points
  | feature :: rest =>
      let* r := body feature in
      for_each body rest (points ++ [r])
  end.

(** The outcome of one iteration: [body x] yields the row [r]. *)
Definition yields {A} (body : A -> M row) (x : A) (r : row) : Prop :=
  snd (body x) = inr r.

(** The events of the iterations over [items], in order. *)
Definition events_of {A} (body : A -> M row) (items : list A) : list event :=
  flat_map (fun x => fst (body x)) items.

(** The pixel windows a trace reads, in order. *)
Definition pixels_read (tr : list event) : list (Z * Z) :=
  omap (fun ev => match ev with
                  | ReadRasterAt pixX pixY => Some (pixX, pixY)
                  | TransformPoint _ _ => None
                  end) tr.


(** The pixel index the loops compute from map coordinates: both
    fractional pixel coordinates floored. *)
Definition pixel_index (reverse : GeoTransform) (mapX mapY : Q) : Z * Z :=
  let pixcoords := affine reverse mapX mapY in
  (math_floor (fst pixcoords), math_floor (snd pixcoords)).

(** The pixel index the loops compute for a point [(x, y)] of the
    source: the point is reprojected by [transform], element 1 of the
    result is taken as [mapX] and element 0 as [mapY]. *)
Definition pixel_of_point
    (transform : Q -> Q -> Q * Q * Q) (reverse : GeoTransform) (x y : Q) : Z * Z :=
  let pointXYRasterCRS := transform x y in
  pixel_index reverse (item1 pointXYRasterCRS) (item0 pointXYRasterCRS).

(** The two events of an iteration that gets as far as reading a
    pixel: the reprojection of [(x, y)] and the read at [pix]. *)
Definition sampling_events (x y : Q) (pix : Z * Z) : list event :=
  [TransformPoint x y; ReadRasterAt (fst pix) (snd pix)].

(** A pixel index inside a band of [XSize] by [YSize] pixels. *)
Definition in_raster (band : Band) (pix : Z * Z) : Prop :=
  0 <= fst pix < XSize band /\ 0 <= snd pix < YSize band.

(** ** The spatial-reference library, a black box *)

Class Osr : Type := mkOsr
  { SpatialReference : Type;
    ImportFromProj4 : string -> SpatialReference;
    ImportFromEPSG : Z -> SpatialReference;
    (** [osr.CoordinateTransformation(src, dst).TransformPoint(x, y)] *)
    CoordinateTransformation :
      SpatialReference -> SpatialReference -> Q -> Q -> Q * Q * Q }.

Section Sampling.
Context `{Osr}.

(** A vector data source with its layer. *)
Record Layer : Type := mkLayer
  { GetSpatialRef : option SpatialReference; features : list Feature }.

(** The files the library can open. *)
Record World : Type := mkWorld
  { rasters : gmap string Dataset; vectors : gmap string Layer }.

(** The body of the loop of [sampleRasterFromPointsList], for one
    [feature] of [points_list]; its value is the row appended to
    [points]. *)
Definition list_body
    (transform : Q -> Q -> Q * Q * Q) (reverse : option GeoTransform)
    (band : Band) (feature : PointItem) : M row :=
  let* _ := emit (TransformPoint (feature1 feature) (feature2 feature)) in
  let pointXYRasterCRS := transform (feature1 feature) (feature2 feature) in
  let mapX := item1 pointXYRasterCRS in
  let mapY := item0 pointXYRasterCRS in
  let* pixcoords := lift (ApplyGeoTransform reverse mapX mapY) in
  let pixX := math_floor (fst pixcoords) in
  let pixY := math_floor (snd pixcoords) in
  let* _ := emit (ReadRasterAt pixX pixY) in
  let elevationstruct := ReadRaster band pixX pixY in
  let* elevation := lift (struct_unpack_h elevationstruct) in
  ret [feature0 feature;
       PyFloat (Finite (feature1 feature));
       PyFloat (Finite (feature2 feature));
       PyInt elevation].

Definition sampleRasterFromPointsList
    (w : World) (raster_file : string) (points_list : list PointItem)
  : M (list row) :=
  let r := rasters w !! raster_file in
  let* r := attr RasterOpenError r in
  let rasterSR := ImportFromProj4 (GetProjection r) in
  let band := GetRasterBand r 1 in
  let* band := attr RasterOpenError band in
  let forward := GetGeoTransform r in
  let reverse := InvGeoTransform forward in
  let pointSR := ImportFromEPSG 3857 in
  let transform := CoordinateTransformation pointSR rasterSR in
  for_each (list_body transform reverse band) points_list [].

(** The body of the loop of [rasterValuesAtPoints], for one [feature]
    of the layer. *)
Definition vector_body
    (host : byteorder) (transform : Q -> Q -> Q * Q * Q)
    (reverse : option GeoTransform) (band : Band) (feature : Feature) : M row :=
  let geom := feature in
  let* _ := emit (TransformPoint (GetX geom) (GetY geom)) in
  let pointXYRasterCRS := transform (GetX geom) (GetY geom) in
  let mapX := item1 pointXYRasterCRS in
  let mapY := item0 pointXYRasterCRS in
  let* pixcoords := lift (ApplyGeoTransform reverse mapX mapY) in
  let pixX := math_floor (fst pixcoords) in
  let pixY := math_floor (snd pixcoords) in
  let* _ := emit (ReadRasterAt pixX pixY) in
  let elevationstruct := ReadRaster band pixX pixY in
  let* elevation := lift (struct_unpack_f host elevationstruct) in
  ret [PyFloat (Finite mapX); PyFloat (Finite mapY); PyFloat elevation].

Definition rasterValuesAtPoints
    (host : byteorder) (w : World) (raster_file point_file : string)
  : M (list row) :=
  let r := rasters w !! raster_file in
  let* r := attr RasterOpenError r in
  let rasterSR := ImportFromProj4 (GetProjection r) in
  let band := GetRasterBand r 1 in
  let* band := attr RasterOpenError band in
  let forward := GetGeoTransform r in
  let reverse := InvGeoTransform forward in
  let p := vectors w !! point_file in
  let* lyr := attr VectorOpenError p in
  let pointSR := GetSpatialRef lyr in
  let* pointSR := attr MissingCRSError pointSR in
  let transform := CoordinateTransformation pointSR rasterSR in
  for_each (vector_body host transform reverse band) (features lyr) [].

End Sampling.

(** ** The CSV sink *)

(** [str] of an [int]. *)
Definition str_int (z : Z) : string := NilZero.string_of_int (Z.to_int z).

Section Csv.
(** [repr] of a finite [float], Python's shortest decimal that reads
    back as the same double; taken as given. *)
Variable repr_float : Q -> string.

(** The text [csv.writer] writes for a field: [repr] for a [float],
    [str] otherwise. *)
Definition field_text (v : pyval) : string :=
  match v with
  | PyInt z => str_int z
  | PyFloat (Finite q) => repr_float q
  | PyFloat NegZero => "-0.0"
  | PyFloat (Infinity false) => "inf"
  | PyFloat (Infinity true) => "-inf"
  | PyFloat NaN => "nan"
  end.

Definition quotechar : ascii := "034"%char.
Definition delimiter : ascii := ","%char.
Definition CR : ascii := "013"%char.
Definition LF : ascii := "010"%char.
Definition lineterminator : string := String CR (String LF EmptyString).

Definition is_special (c : ascii) : bool :=
  Ascii.eqb c delimiter || Ascii.eqb c quotechar
  || Ascii.eqb c CR || Ascii.eqb c LF.

Fixpoint has_special (s : string) : bool :=
  match s with
  | EmptyString => false
  | String c s' => is_special c || has_special s'
  end.

(** Inside a quoted field every quote character is doubled. *)
Fixpoint double_quotes (s : string) : string :=
  match s with
  | EmptyString => EmptyString
  | String c s' =>
      if Ascii.eqb c quotechar
      then String c (String c (double_quotes s'))
      else String c (double_quotes s')
  end.

Definition quoted (s : string) : string :=
  String quotechar (double_quotes s +:+ String quotechar EmptyString).

(** [QUOTE_MINIMAL], the default of the [excel] dialect: a field is
    quoted only when it holds a special character. *)
Definition csv_field (s : string) : string :=
  if has_special s then quoted s else s.

Fixpoint join_fields (fields : list string) : string :=
  match fields with
  | [] => EmptyString
  | [f] => f
  | f :: rest => f +:+ String delimiter (join_fields rest)
  end.

(** The record of a row, without its terminator.  A row made of one
    empty field is written as a pair of quotes. *)
Definition csv_record (fields : list string) : string :=
  match fields with
  | [EmptyString] => quoted EmptyString
  | _ => join_fields (map csv_field fields)
  end.

(** The line of a row of numbers when nothing needs quoting: the
    texts of its fields separated by commas. *)
Definition row_line (r : row) : string :=
  join_fields (map field_text r).

(** [w.writerow(row)]: the text appended to the file. *)
Definition writerow (r : list string) : string :=
  csv_record r +:+ lineterminator.

(** [w.writerows(grid)]. *)
Fixpoint writerows (grid : list row) : string :=
  match grid with
  | [] => EmptyString
  | r :: rest => writerow (map field_text r) +:+ writerows rest
  end.

(** [open(outfile, "w")] truncates or creates the file; the header row
    and then the rows are written to it. *)
Definition gridWithElevation2csv
    (grid : list row) (outfile : string) (fs : gmap string string)
  : gmap string string :=
  let of_ := EmptyString in
  let of_ := of_ +:+ writerow ["x"; "y"; "elevation"]%string in
  let of_ := of_ +:+ writerows grid in
  <[outfile := of_]> fs.

End Csv.

(** The lines of a text, as [str.splitlines] gives them for the line
    ends CR LF, CR and LF. *)
Fixpoint splitlines_from (cur : string) (s : string) : list string :=
  match s with
  | EmptyString =>
      match cur with EmptyString => [] | _ => [cur] end
  | String c s' =>
      if Ascii.eqb c CR then
        match s' with
        | String c' s'' =>
            if Ascii.eqb c' LF then cur :: splitlines_from EmptyString s''
            else cur :: splitlines_from EmptyString s'
        | EmptyString => [cur]
        end
      else if Ascii.eqb c LF then cur :: splitlines_from EmptyString s'
      else splitlines_from (cur +:+ String c EmptyString) s'
  end.

Definition splitlines (s : string) : list string := splitlines_from EmptyString s.




(** A text that holds a line end. *)
Fixpoint has_newline (s : string) : bool :=
  match s with
  | EmptyString => false
  | String c s' => Ascii.eqb c CR || Ascii.eqb c LF || has_newline s'
  end.

(** A field text that [csv.writer] writes as it is: not empty, and free
    of the delimiter, the quote character and line ends. *)
Definition plain (s : string) : Prop :=
  has_special s = false /\ s <> EmptyString.

(** The header row that [gridWithElevation2csv] writes. *)
Definition header : list string := ["x"; "y"; "elevation"].

(** ** The command-line entry point *)

Section Main.
Context `{Osr}.
Variable repr_float : Q -> string.

(** The block under [if __name__ == "__main__"], from the three
  positional arguments that [argparse] hands over:
  [grid = rasterValuesAtPoints(a.inraster, a.inpoints)], then
  [gridWithElevation2csv(grid, a.outfile)].  The text files are
  threaded as state; an exception of the sampling ends the program
  before the sink is reached. *)
Definition main
  (host : byteorder) (w : World) (inraster inpoints outfile : string)
  (fs : gmap string string)
: list event * (error + unit) * gmap string string :=
match rasterValuesAtPoints host w inraster inpoints with
| (tr, inl e) => (tr, inl e, fs)
| (tr, inr grid) =>
    (tr, inr tt, gridWithElevation2csv repr_float grid outfile fs)
end.

End Main.

(** The fields of a line, as [line.split(",")] gives them. *)
Fixpoint split_fields_from (cur : string) (s : string) : list string :=
  match s with
  | EmptyString => [cur]
  | String c s' =>
      if Ascii.eqb c delimiter
      then cur :: split_fields_from EmptyString s'
      else split_fields_from (cur +:+ String c EmptyString) s'
  end.

Definition split_fields (s : string) : list string :=
  split_fields_from EmptyString s.



(** ** A small concrete world, used to run the functions *)

Module Demo.

(** A toy spatial-reference library: a reference is its EPSG code.
    Between equal references a point is left as it is; any other
    target is taken to be geographic and to list latitude first, so
    the point comes back scaled, northing before easting. *)
Definition osr : Osr :=
  mkOsr Z
        (fun proj => if String.eqb proj "+init=epsg:3857" then 3857 else 4326)
        (fun code => code)
        (fun src dst x y =>
           if src =? dst then (x, y, 0%Q) else ((y / 100)%Q, (x / 100)%Q, 0%Q)).

Definition byte_of_Z (z : Z) : byte :=
  match Byte.of_N (Z.to_N z) with
  | Some b => b
  | None => x00
  end.

(** A 4x4 Int16 band: pixel (col, row) holds [10 * col + row], except
    pixel (2, 1), which holds 350. *)
Definition int16_band : Band :=
  mkBand 4 4 (fun col row =>
    if (col =? 2) && (row =? 1) then [x5e; x01]
    else [byte_of_Z (10 * col + row); x00]).

(** A 4x4 Float32 band on a little-endian host, 1.0 everywhere. *)
Definition float32_band : Band :=
  mkBand 4 4 (fun _ _ => [x00; x00; x80; x3f]).

Definition unit_pixels : GeoTransform := mkGT 0 1 0 0 0 1.
Definition north_up : GeoTransform := mkGT 0 1 0 0 0 (-1).
Definition singular : GeoTransform := mkGT 0 1 2 0 2 4.

Definition dem : Dataset :=
  mkDataset "+init=epsg:3857" unit_pixels [int16_band].
Definition north_up_dem : Dataset :=
  mkDataset "+init=epsg:3857" north_up [int16_band].
Definition float_dem : Dataset :=
  mkDataset "+init=epsg:3857" unit_pixels [float32_band].
Definition singular_dem : Dataset :=
  mkDataset "+init=epsg:3857" singular [int16_band].
(** A raster in a geographic system. *)
Definition geographic_dem : Dataset :=
  mkDataset "+proj=longlat" unit_pixels [int16_band].

Definition points_layer : @Layer osr :=
  @mkLayer osr (Some 3857) [mkFeature (5 # 2) (3 # 2); mkFeature (1 # 2) 0].
Definition nocrs_layer : @Layer osr :=
  @mkLayer osr None [mkFeature (5 # 2) (3 # 2)].
Definition one_point_layer : @Layer osr :=
  @mkLayer osr (Some 3857) [mkFeature (3 # 2) (5 # 2)].

Definition W : @World osr :=
  mkWorld
    {[ "dem.tif"%string := dem;
       "north_up.tif"%string := north_up_dem;
       "float.tif"%string := float_dem;
       "singular.tif"%string := singular_dem;
       "geographic.tif"%string := geographic_dem ]}
    {[ "points.geojson"%string := points_layer;
       "one.geojson"%string := one_point_layer;
       "nocrs.shp"%string := nocrs_layer ]}.

(** Points in EPSG:3857. *)
Definition inside : PointItem := mkPoint (PyInt 0) (3 # 2) (5 # 2).
Definition left_of_raster : PointItem := mkPoint (PyInt 1) (5 # 2) (-1 # 2).
Definition origin : PointItem := mkPoint (PyInt 2) 0 0.

(** Rows as the list-based sampling returns them. *)
Definition grid : list row :=
  [[PyInt 0; PyFloat (Finite 100); PyFloat (Finite 200); PyInt 350];
   [PyInt 1; PyFloat (Finite 101); PyFloat (Finite 200); PyInt (-7)]].

(** A 2x1 Int16 band with negative values: -1 and -32768. *)
Definition signed_band : Band :=
  mkBand 2 1 (fun col _ => if col =? 0 then [xff; xff] else [x00; x80]).

(** A 4x1 Float32 band on a little-endian host: -0.5, negative zero,
    the smallest subnormal and plus infinity. *)
Definition signed_float_band : Band :=
  mkBand 4 1 (fun col _ =>
    if col =? 0 then [x00; x00; x00; xbf]
    else if col =? 1 then [x00; x00; x00; x80]
    else if col =? 2 then [x01; x00; x00; x00]
    else [x00; x00; x80; x7f]).

Definition signed_dem : Dataset :=
  mkDataset "+init=epsg:3857" unit_pixels [signed_band].
Definition signed_float_dem : Dataset :=
  mkDataset "+init=epsg:3857" unit_pixels [signed_float_band].

(** One point over each pixel of the bottom row, west to east. *)
Definition row_points : list PointItem :=
  [mkPoint (PyInt 0) 0 0; mkPoint (PyInt 1) 0 1].
Definition row_layer : @Layer osr :=
  @mkLayer osr (Some 3857)
           [mkFeature 0 0; mkFeature 0 1; mkFeature 0 2; mkFeature 0 3].

Definition W_signed : @World osr :=
  mkWorld {[ "signed.tif"%string := signed_dem;
             "signed_float.tif"%string := signed_float_dem ]}
          {[ "row.geojson"%string := row_layer ]}.

(** A file system with a stale output file. *)
Definition stale_fs : gmap string string :=
  {[ "out.csv"%string := "stale"%string ]}.

(** A world whose point file holds points with whole coordinates. *)
Definition whole_layer : @Layer osr :=
  @mkLayer osr (Some 3857) [mkFeature 1 2; mkFeature 3 0].
Definition W_whole : @World osr :=
  mkWorld (rasters W) {[ "whole.geojson"%string := whole_layer ]}.

(** [repr] on floats with an integer value of moderate size: the
    integer followed by [.0]. *)
Definition repr_integral (q : Q) : string := str_int (Qfloor q) +:+ ".0".

End Demo.

(** * Properties *)

(** ** Decoding and arithmetic facts *)

Example int16_le_one : int16_le x01 x00 = 1.
Proof. reflexivity. Qed.

Example int16_le_minus_one : int16_le xff xff = -1.
Proof. reflexivity. Qed.

Example binary32_one : binary32_value 1065353216 = Finite 1.
Proof. vm_compute. reflexivity. Qed.

Example binary32_minus_half : binary32_value 3204448256 = Finite (-1 # 2).
Proof. vm_compute. reflexivity. Qed.

Example inv_identity :
  InvGeoTransform (mkGT 0 1 0 0 0 1) = Some (mkGT 0 1 0 0 0 1).
Proof. vm_compute. reflexivity. Qed.

Example inv_degenerate : InvGeoTransform (mkGT 0 1 2 0 2 4) = None.
Proof. vm_compute. reflexivity. Qed.

Lemma math_floor_spec (q : Q) :
  (inject_Z (math_floor q) <= q)%Q /\ (q < inject_Z (math_floor q + 1))%Q.
Proof.
  unfold math_floor. split; [apply Qfloor_le | apply Qlt_floor].
Qed.

Lemma affine_unit_pixels (x y : Q) :
  (fst (affine (mkGT 0 1 0 0 0 1) x y) == x)%Q /\
  (snd (affine (mkGT 0 1 0 0 0 1) x y) == y)%Q.
Proof. unfold affine; simpl; split; ring. Qed.

Lemma pixel_index_unit_pixels (x y : Q) :
  pixel_index (mkGT 0 1 0 0 0 1) x y = (Qfloor x, Qfloor y).
Proof.
  unfold pixel_index, math_floor.
  destruct (affine_unit_pixels x y) as [Hx Hy].
  now rewrite Hx, Hy.
Qed.

(** A transform whose determinant is zero has no inverse. *)
Lemma InvGeoTransform_degenerate (gt : GeoTransform) :
  (gt1 gt * gt5 gt - gt2 gt * gt4 gt == 0)%Q -> InvGeoTransform gt = None.
Proof.
  destruct gt as [g0 g1 g2 g3 g4 g5]; cbn [gt1 gt2 gt4 gt5]. intros Hdet.
  unfold InvGeoTransform.
  destruct (Qeq_bool g2 0 && Qeq_bool g4 0
            && negb (Qeq_bool g1 0) && negb (Qeq_bool g5 0)) eqn:Hfast.
  - exfalso.
    repeat (apply andb_prop in Hfast; destruct Hfast as [Hfast ?]).
    apply Qeq_bool_eq in Hfast.
    match goal with H : Qeq_bool g4 0 = true |- _ => apply Qeq_bool_eq in H; rename H into H4 end.
    match goal with H : negb (Qeq_bool g1 0) = true |- _ => apply negb_true_iff, Qeq_bool_neq in H; rename H into H1 end.
    match goal with H : negb (Qeq_bool g5 0) = true |- _ => apply negb_true_iff, Qeq_bool_neq in H; rename H into H5 end.
    rewrite Hfast, H4 in Hdet.
    assert (Hp : (g1 * g5 == 0)%Q) by (rewrite <- Hdet; ring).
    apply Qmult_integral in Hp. tauto.
  - match goal with |- context [Qle_bool ?a ?b] =>
      assert (Hle : Qle_bool a b = true) end.
    { apply Qle_bool_iff.
      set (m := Qmax _ _).
      assert (Hm : (0 <= m)%Q).
      { apply Qle_trans with (y := Qabs g1); [apply Qabs_nonneg|].
        unfold m. eapply Qle_trans; [|apply Q.le_max_l]. apply Q.le_max_l. }
      apply Qle_trans with (y := 0%Q).
      - rewrite Hdet. discriminate.
      - repeat apply Qmult_le_0_compat; [discriminate | assumption | assumption]. }
    now rewrite Hle.
Qed.

(** ** Runs of the loop *)

Lemma bind_ret {A B} (a : A) (k : A -> M B) : bind (ret a) k = k a.
Proof. unfold bind, ret. simpl. now destruct (k a). Qed.

Lemma bind_attr_some {A B} (e : error) (a : A) (k : A -> M B) :
  bind (attr e (Some a)) k = k a.
Proof. apply bind_ret. Qed.

Lemma bind_attr_none {A B} (e : error) (k : A -> M B) :
  bind (attr e None) k = ([], inl e).
Proof. reflexivity. Qed.

Section Loop.
Context {A : Type} (body : A -> M row).

Lemma for_each_cons (x : A) (rest : list A) (acc : list row) :
  for_each body (x :: rest) acc =
  bind (body x) (fun r => for_each body rest (acc ++ [r])).
Proof. reflexivity. Qed.

(** When every iteration yields a row, the loop returns them all. *)
Lemma for_each_ok (items : list A) (rows acc : list row) :
  Forall2 (yields body) items rows ->
  for_each body items acc = (events_of body items, inr (acc ++ rows)).
Proof.
  intros HF. revert acc.
  induction HF as [|x r items rows Hx _ IH]; intros acc.
  - simpl. unfold ret. now rewrite app_nil_r.
  - rewrite for_each_cons. unfold yields in Hx.
    destruct (body x) as [t [e|r']] eqn:E; simpl in Hx; [discriminate|].
    injection Hx as ->. unfold bind. rewrite IH. simpl.
    unfold events_of at 2. simpl. rewrite E. simpl.
    now rewrite <- app_assoc.
Qed.

(** The first iteration that raises ends the loop: the items after it
    leave no event, and the rows gathered so far are dropped. *)
Lemma for_each_fail (pre : list A) (rows : list row) (x : A) (e : error)
    (post : list A) (acc : list row) :
  Forall2 (yields body) pre rows ->
  snd (body x) = inl e ->
  for_each body (pre ++ x :: post) acc = (events_of body (pre ++ [x]), inl e).
Proof.
  intros HF Hx. revert acc.
  induction HF as [|y r pre rows Hy _ IH]; intros acc.
  - simpl. unfold bind, events_of. simpl.
    destruct (body x) as [t [e'|r']]; simpl in *; [|discriminate].
    injection Hx as ->. now rewrite app_nil_r.
  - simpl app. rewrite for_each_cons. unfold yields in Hy.
    destruct (body y) as [t [e'|r']] eqn:E; simpl in Hy; [discriminate|].
    injection Hy as ->. unfold bind. rewrite IH. simpl.
    unfold events_of at 2. simpl. now rewrite E.
Qed.

(** Every run of the loop: it handles the first [n] items and no
    other, at least one unless there is none, and all of them when it
    returns. *)
Lemma for_each_run (items : list A) (acc : list row) :
  exists n : nat,
    fst (for_each body items acc) = events_of body (take n items) /\
    (items <> [] -> (0 < n)%nat) /\
    match snd (for_each body items acc) with
    | inr rows =>
        n = length items /\
        exists rows', rows = acc ++ rows' /\ Forall2 (yields body) items rows'
    | inl e =>
        exists x, items !! pred n = Some x /\ snd (body x) = inl e
    end.
Proof.
  revert acc. induction items as [|x rest IH]; intros acc.
  - exists 0%nat. simpl. repeat split; [congruence|].
    exists []. rewrite app_nil_r. split; [reflexivity | constructor].
  - rewrite for_each_cons.
    destruct (body x) as [t [e|r]] eqn:E.
    + exists 1%nat. simpl. unfold events_of. simpl. rewrite E. simpl.
      rewrite app_nil_r. repeat split; [lia|].
      exists x. rewrite E. now split.
    + destruct (IH (acc ++ [r])) as (n & Htr & Hpos & Hres).
      exists (S n). unfold bind. cbn [fst snd].
      split; [|split].
      * rewrite Htr. simpl. unfold events_of at 2. simpl. now rewrite E.
      * lia.
      * destruct (snd (for_each body rest (acc ++ [r]))) as [e|rows].
        -- destruct Hres as (y & Hy & Hey).
           exists y. split; [|assumption].
           destruct n as [|n]; simpl in *.
           ++ destruct rest; [discriminate|]. exfalso. apply (Nat.lt_irrefl 0), Hpos. congruence.
           ++ assumption.
        -- destruct Hres as (-> & rows' & -> & HF).
           split; [reflexivity|].
           exists (r :: rows'). rewrite <- app_assoc. split; [reflexivity|].
           constructor; [|assumption]. unfold yields. now rewrite E.
Qed.
End Loop.

(** ** One iteration of each sampling loop *)

Lemma ReadRaster_in_raster (band : Band) (pix : Z * Z) :
  in_raster band pix ->
  ReadRaster band (fst pix) (snd pix) = Some (pixel_bytes band (fst pix) (snd pix)).
Proof.
  unfold in_raster, ReadRaster. intros [[? ?] [? ?]].
  replace (0 <=? fst pix) with true by (symmetry; apply Z.leb_le; lia).
  replace (fst pix + 1 <=? XSize band) with true by (symmetry; apply Z.leb_le; lia).
  replace (0 <=? snd pix) with true by (symmetry; apply Z.leb_le; lia).
  replace (snd pix + 1 <=? YSize band) with true by (symmetry; apply Z.leb_le; lia).
  reflexivity.
Qed.

Lemma ReadRaster_outside (band : Band) (pix : Z * Z) :
  ~ in_raster band pix -> ReadRaster band (fst pix) (snd pix) = None.
Proof.
  unfold in_raster, ReadRaster. intros Hout.
  destruct ((0 <=? fst pix) && (fst pix + 1 <=? XSize band)
            && (0 <=? snd pix) && (snd pix + 1 <=? YSize band)) eqn:E;
    [|reflexivity].
  exfalso. apply Hout.
  repeat (apply andb_prop in E; destruct E as [E ?]).
  repeat match goal with H : (_ <=? _) = true |- _ => apply Z.leb_le in H end.
  lia.
Qed.


Section Iterations.
Variable transform : Q -> Q -> Q * Q * Q.
Variable band : Band.

Lemma list_body_events (rev : GeoTransform) (p : PointItem) :
  fst (list_body transform (Some rev) band p) =
  let pix := pixel_of_point transform rev (feature1 p) (feature2 p) in
  [TransformPoint (feature1 p) (feature2 p); ReadRasterAt (fst pix) (snd pix)].
Proof.
  unfold list_body, pixel_of_point, pixel_index. cbn.
  now destruct (struct_unpack_h _).
Qed.

Lemma list_body_result (rev : GeoTransform) (p : PointItem) :
  snd (list_body transform (Some rev) band p) =
  let pix := pixel_of_point transform rev (feature1 p) (feature2 p) in
  match struct_unpack_h (ReadRaster band (fst pix) (snd pix)) with
  | inl e => inl e
  | inr elevation =>
      inr [feature0 p; PyFloat (Finite (feature1 p));
           PyFloat (Finite (feature2 p)); PyInt elevation]
  end.
Proof.
  unfold list_body, pixel_of_point, pixel_index. cbn.
  now destruct (struct_unpack_h _).
Qed.

Lemma list_body_no_inverse (p : PointItem) :
  list_body transform None band p =
  ([TransformPoint (feature1 p) (feature2 p)], inl TransformInversionError).
Proof. reflexivity. Qed.

Lemma vector_body_events (host : byteorder) (rev : GeoTransform) (f : Feature) :
  fst (vector_body host transform (Some rev) band f) =
  let pix := pixel_of_point transform rev (GetX f) (GetY f) in
  [TransformPoint (GetX f) (GetY f); ReadRasterAt (fst pix) (snd pix)].
Proof.
  unfold vector_body, pixel_of_point, pixel_index. cbn.
  now destruct (struct_unpack_f _ _).
Qed.

Lemma vector_body_result (host : byteorder) (rev : GeoTransform) (f : Feature) :
  snd (vector_body host transform (Some rev) band f) =
  let pix := pixel_of_point transform rev (GetX f) (GetY f) in
  match struct_unpack_f host (ReadRaster band (fst pix) (snd pix)) with
  | inl e => inl e
  | inr elevation =>
      inr [PyFloat (Finite (item1 (transform (GetX f) (GetY f))));
           PyFloat (Finite (item0 (transform (GetX f) (GetY f))));
           PyFloat elevation]
  end.
Proof.
  unfold vector_body, pixel_of_point, pixel_index. cbn.
  now destruct (struct_unpack_f _ _).
Qed.

Lemma vector_body_no_inverse (host : byteorder) (f : Feature) :
  vector_body host transform None band f =
  ([TransformPoint (GetX f) (GetY f)], inl TransformInversionError).
Proof. reflexivity. Qed.




End Iterations.

(** ** The functions once their files are open *)

Section Opened.
Context `{Osr}.

Lemma sampleRasterFromPointsList_open
    (w : World) (raster_file : string) (r : Dataset) (band : Band)
    (points_list : list PointItem) :
  rasters w !! raster_file = Some r ->
  GetRasterBand r 1 = Some band ->
  sampleRasterFromPointsList w raster_file points_list =
  for_each
    (list_body
       (CoordinateTransformation (ImportFromEPSG 3857)
                                 (ImportFromProj4 (GetProjection r)))
       (InvGeoTransform (GetGeoTransform r)) band)
    points_list [].
Proof.
  intros Hr Hb. unfold sampleRasterFromPointsList.
  rewrite Hr, bind_attr_some, Hb, bind_attr_some. reflexivity.
Qed.

Lemma rasterValuesAtPoints_open
    (host : byteorder) (w : World) (raster_file point_file : string)
    (r : Dataset) (band : Band) (lyr : Layer) (pointSR : SpatialReference) :
  rasters w !! raster_file = Some r ->
  GetRasterBand r 1 = Some band ->
  vectors w !! point_file = Some lyr ->
  GetSpatialRef lyr = Some pointSR ->
  rasterValuesAtPoints host w raster_file point_file =
  for_each
    (vector_body host
       (CoordinateTransformation pointSR (ImportFromProj4 (GetProjection r)))
       (InvGeoTransform (GetGeoTransform r)) band)
    (features lyr) [].
Proof.
  intros Hr Hb Hl Hsr. unfold rasterValuesAtPoints.
  rewrite Hr, bind_attr_some, Hb, bind_attr_some, Hl, bind_attr_some,
    Hsr, bind_attr_some.
  reflexivity.
Qed.
End Opened.

(** ** Which pixel a point selects *)

Section Selection.
Context `{Osr}.

End Selection.

(** ** Unit pixels and the floor *)

Lemma for_each_single_events {A} (body : A -> M row) (x : A) (acc : list row) :
  fst (for_each body [x] acc) = fst (body x).
Proof.
  rewrite for_each_cons. unfold bind.
  destruct (body x) as [t [e|r]]; simpl; [reflexivity | apply app_nil_r].
Qed.

Section UnitPixels.
Context `{Osr}.

(** C1, amended: with the forward geotransform [0,1,0,0,0,1] and a
    reprojection that leaves the point [(x, y)] as it is (the raster and
    the points share one spatial reference), sampling the point reads
    the pixel at index [(floor y, floor x)], in both sampling
    functions. *)
Theorem unit_pixels_read_floor_swapped
    (w : World) (raster_file : string) (r : Dataset) (band : Band) :
  rasters w !! raster_file = Some r ->
  GetRasterBand r 1 = Some band ->
  GetGeoTransform r = mkGT 0 1 0 0 0 1 ->
  let rasterSR := ImportFromProj4 (GetProjection r) in
  (forall (index : pyval) (x y z : Q),
     CoordinateTransformation (ImportFromEPSG 3857) rasterSR x y = (x, y, z) ->
     pixels_read (fst (sampleRasterFromPointsList w raster_file [mkPoint index x y]))
     = [(Qfloor y, Qfloor x)]) /\
  (forall (host : byteorder) (point_file : string) (pointSR : SpatialReference)
          (x y z : Q),
     vectors w !! point_file = Some (mkLayer (Some pointSR) [mkFeature x y]) ->
     CoordinateTransformation pointSR rasterSR x y = (x, y, z) ->
     pixels_read (fst (rasterValuesAtPoints host w raster_file point_file))
     = [(Qfloor y, Qfloor x)]).
Proof.
  intros Hr Hb Hgt. cbv zeta. split.
  - intros index x y z Hid.
    rewrite (sampleRasterFromPointsList_open _ _ _ _ _ Hr Hb), Hgt, inv_identity.
    rewrite for_each_single_events, list_body_events.
    unfold pixel_of_point. cbn [feature1 feature2]. rewrite Hid.
    cbn [item0 item1 fst snd pixels_read omap].
    rewrite pixel_index_unit_pixels. reflexivity.
  - intros host point_file pointSR x y z Hl Hid.
    rewrite (rasterValuesAtPoints_open _ _ _ _ _ _ _ _ Hr Hb Hl eq_refl),
      Hgt, inv_identity.
    cbn [features]. rewrite for_each_single_events, vector_body_events.
    unfold pixel_of_point. cbn [GetX GetY]. rewrite Hid.
    cbn [item0 item1 fst snd pixels_read omap].
    rewrite pixel_index_unit_pixels. reflexivity.
Qed.

(** C4: the pixel index handed to [ReadRaster] is the floor of each
    fractional pixel coordinate, whatever the size of the raster: the
    greatest integers not above the coordinates, so that -0.5 gives -1,
    with no rounding and no clamping to the raster. *)
Theorem pixel_index_floors_toward_minus_infinity
    (w : World) (raster_file : string) (r : Dataset) (band : Band)
    (reverse : GeoTransform) :
  rasters w !! raster_file = Some r ->
  GetRasterBand r 1 = Some band ->
  InvGeoTransform (GetGeoTransform r) = Some reverse ->
  let rasterSR := ImportFromProj4 (GetProjection r) in
  (forall (index : pyval) (x y : Q),
     let t := CoordinateTransformation (ImportFromEPSG 3857) rasterSR x y in
     let pixcoords := affine reverse (item1 t) (item0 t) in
     exists pixX pixY : Z,
       pixels_read (fst (sampleRasterFromPointsList w raster_file [mkPoint index x y]))
       = [(pixX, pixY)] /\
       (inject_Z pixX <= fst pixcoords < inject_Z (pixX + 1))%Q /\
       (inject_Z pixY <= snd pixcoords < inject_Z (pixY + 1))%Q) /\
  (forall (host : byteorder) (point_file : string) (pointSR : SpatialReference)
          (x y : Q),
     vectors w !! point_file = Some (mkLayer (Some pointSR) [mkFeature x y]) ->
     let t := CoordinateTransformation pointSR rasterSR x y in
     let pixcoords := affine reverse (item1 t) (item0 t) in
     exists pixX pixY : Z,
       pixels_read (fst (rasterValuesAtPoints host w raster_file point_file))
       = [(pixX, pixY)] /\
       (inject_Z pixX <= fst pixcoords < inject_Z (pixX + 1))%Q /\
       (inject_Z pixY <= snd pixcoords < inject_Z (pixY + 1))%Q) /\
  math_floor (-1 # 2) = -1 /\
  pixel_index (mkGT 0 1 0 0 0 1) (-1 # 2) (5 # 2) = (-1, 2).
Proof.
  intros Hr Hb Hinv. cbv zeta. split; [|split; [|split; reflexivity]].
  - intros index x y.
    rewrite (sampleRasterFromPointsList_open _ _ _ _ _ Hr Hb), Hinv.
    rewrite for_each_single_events, list_body_events.
    unfold pixel_of_point, pixel_index. cbn [feature1 feature2 fst snd].
    eexists _, _. split; [reflexivity|]. split; apply math_floor_spec.
  - intros host point_file pointSR x y Hl.
    rewrite (rasterValuesAtPoints_open _ _ _ _ _ _ _ _ Hr Hb Hl eq_refl), Hinv.
    cbn [features]. rewrite for_each_single_events, vector_body_events.
    unfold pixel_of_point, pixel_index. cbn [GetX GetY fst snd].
    eexists _, _. split; [reflexivity|]. split; apply math_floor_spec.
Qed.
End UnitPixels.

(** C1, as stated, fails: the raster has the forward geotransform
    [0,1,0,0,0,1] and the spatial reference of the points, and sampling
    the point (1.5, 2.5) reads pixel (2, 1), not (1, 2); the row carries
    350, the value of pixel (2, 1), while pixel (1, 2) holds 12. *)
Lemma unit_pixels_read_not_floor_x_floor_y :
  let points_list := [mkPoint (PyInt 0) (3 # 2) (5 # 2)] in
  let run := @sampleRasterFromPointsList Demo.osr Demo.W "dem.tif" points_list in
  rasters Demo.W !! "dem.tif"%string = Some Demo.dem /\
  GetGeoTransform Demo.dem = mkGT 0 1 0 0 0 1 /\
  @ImportFromProj4 Demo.osr (GetProjection Demo.dem) = @ImportFromEPSG Demo.osr 3857 /\
  pixels_read (fst run) <> [(Qfloor (3 # 2), Qfloor (5 # 2))] /\
  pixels_read (fst run) = [(2, 1)] /\
  snd run = inr [[PyInt 0; PyFloat (Finite (3 # 2)); PyFloat (Finite (5 # 2)); PyInt 350]] /\
  struct_unpack_h (ReadRaster Demo.int16_band 1 2) = inr 12.
Proof.
  cbv zeta. repeat split; try (vm_compute; reflexivity).
  vm_compute. discriminate.
Qed.

(** ** When an iteration yields a row *)

Lemma Forall_yields {A} (body : A -> M row) (l : list A) :
  Forall (fun x => exists r, yields body x r) l ->
  exists rows, Forall2 (yields body) l rows.
Proof.
  induction 1 as [|x l [r Hr] _ [rows IH]].
  - exists []. constructor.
  - exists (r :: rows). now constructor.
Qed.

Section Yields.
Variable transform : Q -> Q -> Q * Q * Q.
Variable band : Band.

Lemma list_body_yields (rev : GeoTransform) (p : PointItem) (r : row) :
  yields (list_body transform (Some rev) band) p r <->
  let pix := pixel_of_point transform rev (feature1 p) (feature2 p) in
  exists b0 b1 : byte,
    ReadRaster band (fst pix) (snd pix) = Some [b0; b1] /\
    r = [feature0 p; PyFloat (Finite (feature1 p));
         PyFloat (Finite (feature2 p)); PyInt (int16_le b0 b1)].
Proof.
  unfold yields. rewrite list_body_result. cbv zeta.
  destruct (ReadRaster band _ _) as [[|b0 [|b1 [|b2 l]]]|]; simpl; split;
    try discriminate; try (intros (? & ? & ? & ?); discriminate).
  - intros [= <-]. now exists b0, b1.
  - intros (c0 & c1 & [= <- <-] & ->). reflexivity.
Qed.

Lemma list_body_row (reverse : option GeoTransform) (p : PointItem) (r : row) :
  yields (list_body transform reverse band) p r ->
  exists elevation : Z,
    r = [feature0 p; PyFloat (Finite (feature1 p));
         PyFloat (Finite (feature2 p)); PyInt elevation].
Proof.
  destruct reverse as [rev|].
  - intros Hy. apply list_body_yields in Hy. cbv zeta in Hy.
    destruct Hy as (b0 & b1 & _ & ->). now eexists.
  - unfold yields. rewrite list_body_no_inverse. discriminate.
Qed.

Lemma list_body_outside (rev : GeoTransform) (p : PointItem) :
  ~ in_raster band (pixel_of_point transform rev (feature1 p) (feature2 p)) ->
  snd (list_body transform (Some rev) band p) = inl PixelReadError.
Proof.
  intros Hout. rewrite list_body_result. cbv zeta.
  now rewrite (ReadRaster_outside _ _ Hout).
Qed.

Lemma list_events_of (rev : GeoTransform) (l : list PointItem) :
  events_of (list_body transform (Some rev) band) l =
  flat_map (fun p => sampling_events (feature1 p) (feature2 p)
                       (pixel_of_point transform rev (feature1 p) (feature2 p))) l.
Proof.
  unfold events_of. apply flat_map_ext. intros p. apply list_body_events.
Qed.

Lemma vector_body_yields (host : byteorder) (rev : GeoTransform) (f : Feature) (r : row) :
  yields (vector_body host transform (Some rev) band) f r <->
  let pix := pixel_of_point transform rev (GetX f) (GetY f) in
  exists b0 b1 b2 b3 : byte,
    ReadRaster band (fst pix) (snd pix) = Some [b0; b1; b2; b3] /\
    r = [PyFloat (Finite (item1 (transform (GetX f) (GetY f))));
         PyFloat (Finite (item0 (transform (GetX f) (GetY f))));
         PyFloat (binary32_value (word32 host b0 b1 b2 b3))].
Proof.
  unfold yields. rewrite vector_body_result. cbv zeta.
  destruct (ReadRaster band _ _) as [[|b0 [|b1 [|b2 [|b3 [|b4 l]]]]]|];
    cbn [struct_unpack_f]; split;
    try discriminate; try (intros (? & ? & ? & ? & ? & ?); discriminate).
  - intros [= <-]. now exists b0, b1, b2, b3.
  - intros (c0 & c1 & c2 & c3 & [= <- <- <- <-] & ->). reflexivity.
Qed.

Lemma vector_body_outside (host : byteorder) (rev : GeoTransform) (f : Feature) :
  ~ in_raster band (pixel_of_point transform rev (GetX f) (GetY f)) ->
  snd (vector_body host transform (Some rev) band f) = inl PixelReadError.
Proof.
  intros Hout. rewrite vector_body_result. cbv zeta.
  now rewrite (ReadRaster_outside _ _ Hout).
Qed.

Lemma vector_events_of (host : byteorder) (rev : GeoTransform) (l : list Feature) :
  events_of (vector_body host transform (Some rev) band) l =
  flat_map (fun f => sampling_events (GetX f) (GetY f)
                       (pixel_of_point transform rev (GetX f) (GetY f))) l.
Proof.
  unfold events_of. apply flat_map_ext. intros f. apply vector_body_events.
Qed.
End Yields.

(** ** Failures *)

Section Failures.
Context `{Osr}.

(** C7: when the pixel index of a point lies outside the raster, the
    read fails and the run ends there with that failure: the trace
    stops at the failed read, the points after it are neither
    reprojected nor read, and no rows are returned, not even those of
    the points before it. *)
Theorem read_outside_raster_aborts_run
    (w : World) (raster_file : string) (r : Dataset) (band : Band)
    (reverse : GeoTransform) :
  rasters w !! raster_file = Some r ->
  GetRasterBand r 1 = Some band ->
  InvGeoTransform (GetGeoTransform r) = Some reverse ->
  let rasterSR := ImportFromProj4 (GetProjection r) in
  (forall pre (p : PointItem) post,
     let transform := CoordinateTransformation (ImportFromEPSG 3857) rasterSR in
     let pix q := pixel_of_point transform reverse (feature1 q) (feature2 q) in
     Forall (fun q => exists b0 b1,
               ReadRaster band (fst (pix q)) (snd (pix q)) = Some [b0; b1]) pre ->
     ~ in_raster band (pix p) ->
     sampleRasterFromPointsList w raster_file (pre ++ p :: post) =
     (flat_map (fun q => sampling_events (feature1 q) (feature2 q) (pix q))
               (pre ++ [p]),
      inl PixelReadError)) /\
  (forall (host : byteorder) (point_file : string) (lyr : Layer)
          (pointSR : SpatialReference) pre (f : Feature) post,
     vectors w !! point_file = Some lyr ->
     GetSpatialRef lyr = Some pointSR ->
     features lyr = pre ++ f :: post ->
     let transform := CoordinateTransformation pointSR rasterSR in
     let pix q := pixel_of_point transform reverse (GetX q) (GetY q) in
     Forall (fun q => exists b0 b1 b2 b3,
               ReadRaster band (fst (pix q)) (snd (pix q)) = Some [b0; b1; b2; b3])
            pre ->
     ~ in_raster band (pix f) ->
     rasterValuesAtPoints host w raster_file point_file =
     (flat_map (fun q => sampling_events (GetX q) (GetY q) (pix q)) (pre ++ [f]),
      inl PixelReadError)).
Proof.
  intros Hr Hb Hinv. cbv zeta. split.
  - intros pre p post Hpre Hout.
    rewrite (sampleRasterFromPointsList_open _ _ _ _ _ Hr Hb), Hinv.
    destruct (Forall_yields
                (list_body (CoordinateTransformation
                              (ImportFromEPSG 3857)
                              (ImportFromProj4 (GetProjection r)))
                           (Some reverse) band) pre) as [rows Hrows].
    { eapply Forall_impl; [exact Hpre|].
      intros q (b0 & b1 & Hread). eexists. apply list_body_yields.
      cbv zeta. exists b0, b1. split; [exact Hread | reflexivity]. }
    rewrite (for_each_fail _ _ _ _ _ _ _ Hrows (list_body_outside _ _ _ _ Hout)).
    now rewrite list_events_of.
  - intros host point_file lyr pointSR pre f post Hl Hsr Hfs Hpre Hout.
    rewrite (rasterValuesAtPoints_open _ _ _ _ _ _ _ _ Hr Hb Hl Hsr), Hinv, Hfs.
    destruct (Forall_yields
                (vector_body host
                   (CoordinateTransformation
                      pointSR (ImportFromProj4 (GetProjection r)))
                   (Some reverse) band) pre) as [rows Hrows].
    { eapply Forall_impl; [exact Hpre|].
      intros q (b0 & b1 & b2 & b3 & Hread). eexists. apply vector_body_yields.
      cbv zeta. exists b0, b1, b2, b3. split; [exact Hread | reflexivity]. }
    rewrite (for_each_fail _ _ _ _ _ _ _ Hrows
               (vector_body_outside _ _ _ _ _ Hout)).
    now rewrite vector_events_of.
Qed.

(** C5: a vector layer without a spatial reference makes
    [rasterValuesAtPoints] fail with [MissingCRSError] once the raster
    is open, before any point is handled; whatever the raster file, the
    run fails and handles no point. *)
Theorem layer_without_crs_fails
    (host : byteorder) (w : World) (raster_file point_file : string)
    (lyr : Layer) :
  vectors w !! point_file = Some lyr ->
  GetSpatialRef lyr = None ->
  let run := rasterValuesAtPoints host w raster_file point_file in
  (forall r band,
     rasters w !! raster_file = Some r ->
     GetRasterBand r 1 = Some band ->
     run = ([], inl MissingCRSError)) /\
  fst run = [] /\
  exists e, snd run = inl e.
Proof.
  intros Hl Hsr. cbv zeta. unfold rasterValuesAtPoints. split.
  - intros r band Hr Hb.
    rewrite Hr, bind_attr_some, Hb, bind_attr_some, Hl, bind_attr_some, Hsr.
    reflexivity.
  - destruct (rasters w !! raster_file) as [r|];
      [rewrite bind_attr_some | now eauto].
    destruct (GetRasterBand r 1) as [band|];
      [rewrite bind_attr_some | now eauto].
    rewrite Hl, bind_attr_some, Hsr. now eauto.
Qed.

(** C6, amended: a forward geotransform with zero determinant has no
    inverse, and loading the raster does not fail for it.  The run
    fails with [TransformInversionError] when the inverse is first
    applied, on the first point: that point is reprojected, no pixel is
    read, and no later point is handled.  A run without points returns
    the empty list. *)
Theorem singular_transform_fails_at_first_point
    (w : World) (raster_file : string) (r : Dataset) (band : Band) :
  rasters w !! raster_file = Some r ->
  GetRasterBand r 1 = Some band ->
  (gt1 (GetGeoTransform r) * gt5 (GetGeoTransform r)
   - gt2 (GetGeoTransform r) * gt4 (GetGeoTransform r) == 0)%Q ->
  InvGeoTransform (GetGeoTransform r) = None /\
  sampleRasterFromPointsList w raster_file [] = ([], inr []) /\
  (forall p rest,
     sampleRasterFromPointsList w raster_file (p :: rest) =
     ([TransformPoint (feature1 p) (feature2 p)], inl TransformInversionError)) /\
  (forall (host : byteorder) (point_file : string) (lyr : Layer)
          (pointSR : SpatialReference),
     vectors w !! point_file = Some lyr ->
     GetSpatialRef lyr = Some pointSR ->
     rasterValuesAtPoints host w raster_file point_file =
     match features lyr with
     | [] => ([], inr [])
     | f :: _ => ([TransformPoint (GetX f) (GetY f)], inl TransformInversionError)
     end).
Proof.
  intros Hr Hb Hdet.
  pose proof (InvGeoTransform_degenerate _ Hdet) as Hinv.
  split; [exact Hinv|]. split; [|split].
  - now rewrite (sampleRasterFromPointsList_open _ _ _ _ _ Hr Hb).
  - intros p rest.
    rewrite (sampleRasterFromPointsList_open _ _ _ _ _ Hr Hb), Hinv.
    rewrite for_each_cons, list_body_no_inverse. reflexivity.
  - intros host point_file lyr pointSR Hl Hsr.
    rewrite (rasterValuesAtPoints_open _ _ _ _ _ _ _ _ Hr Hb Hl Hsr), Hinv.
    destruct (features lyr) as [|f rest]; [reflexivity|].
    rewrite for_each_cons, vector_body_no_inverse. reflexivity.
Qed.
End Failures.

(** C6, as stated, fails: the forward geotransform [0,1,2,0,2,4] has
    determinant zero and no inverse, yet sampling an empty list of points
    on that raster returns the empty list, and with a layer that has no
    spatial reference the run fails for that reason instead. *)
Lemma singular_transform_loading_does_not_fail :
  rasters Demo.W !! "singular.tif"%string = Some Demo.singular_dem /\
  GetGeoTransform Demo.singular_dem = mkGT 0 1 2 0 2 4 /\
  InvGeoTransform (GetGeoTransform Demo.singular_dem) = None /\
  @sampleRasterFromPointsList Demo.osr Demo.W "singular.tif" [] = ([], inr []) /\
  snd (@sampleRasterFromPointsList Demo.osr Demo.W "singular.tif" [])
    <> inl TransformInversionError /\
  @rasterValuesAtPoints Demo.osr LittleEndian Demo.W "singular.tif" "nocrs.shp"
    = ([], inl MissingCRSError).
Proof.
  repeat split; try (vm_compute; reflexivity).
  vm_compute. discriminate.
Qed.

(** ** Rows *)

Section Rows.
Context `{Osr}.

(** C9: the rows that [sampleRasterFromPointsList] returns are as many
    as the input points, in their order, and the row of a point is its
    index, x and y as given, followed by one integer elevation; the
    function does return rows whenever the raster opens with an
    invertible geotransform and every read gives two bytes. *)
Theorem list_rows_carry_input_points
    (w : World) (raster_file : string) (points_list : list PointItem) :
  let run := sampleRasterFromPointsList w raster_file points_list in
  (forall rows, snd run = inr rows ->
     length rows = length points_list /\
     Forall2 (fun p row => exists elevation : Z,
                row = [feature0 p; PyFloat (Finite (feature1 p));
                       PyFloat (Finite (feature2 p)); PyInt elevation])
             points_list rows) /\
  (forall r band reverse,
     rasters w !! raster_file = Some r ->
     GetRasterBand r 1 = Some band ->
     InvGeoTransform (GetGeoTransform r) = Some reverse ->
     let transform :=
       CoordinateTransformation (ImportFromEPSG 3857)
                                (ImportFromProj4 (GetProjection r)) in
     let pix p := pixel_of_point transform reverse (feature1 p) (feature2 p) in
     Forall (fun p => exists b0 b1,
               ReadRaster band (fst (pix p)) (snd (pix p)) = Some [b0; b1])
            points_list ->
     exists rows, snd run = inr rows /\ length rows = length points_list).
Proof.
  cbv zeta. split.
  - intros rows Hrows.
    assert (HF : Forall2 (fun p row => exists elevation : Z,
                row = [feature0 p; PyFloat (Finite (feature1 p));
                       PyFloat (Finite (feature2 p)); PyInt elevation])
             points_list rows).
    { unfold sampleRasterFromPointsList in Hrows.
      destruct (rasters w !! raster_file) as [r|]; [|discriminate].
      rewrite bind_attr_some in Hrows.
      destruct (GetRasterBand r 1) as [band|]; [|discriminate].
      rewrite bind_attr_some in Hrows.
      match type of Hrows with
      | snd (for_each ?body _ _) = _ =>
          destruct (for_each_run body points_list []) as (n & _ & _ & Hres)
      end.
      rewrite Hrows in Hres. destruct Hres as (_ & rows' & -> & HF). simpl.
      eapply Forall2_impl; [exact HF|].
      intros p row Hy. now apply list_body_row in Hy. }
    split; [|exact HF]. symmetry. eapply Forall2_length. exact HF.
  - intros r band reverse Hr Hb Hinv Hall.
    rewrite (sampleRasterFromPointsList_open _ _ _ _ _ Hr Hb), Hinv.
    set (body := list_body _ (Some reverse) band).
    destruct (Forall_yields body points_list) as [rows Hrows].
    { eapply Forall_impl; [exact Hall|].
      intros q (b0 & b1 & Hread). eexists. apply list_body_yields.
      cbv zeta. exists b0, b1. split; [exact Hread | reflexivity]. }
    exists rows. rewrite (for_each_ok _ _ _ _ Hrows). split; [reflexivity|].
    symmetry. eapply Forall2_length. exact Hrows.
Qed.
End Rows.

(** ** The CSV text *)

Local Arguments String.append : simpl nomatch.

Lemma append_assoc (a b c : string) : (a +:+ b) +:+ c = a +:+ (b +:+ c).
Proof. induction a as [|ch a IH]; cbn; [reflexivity | f_equal; exact IH]. Qed.

Lemma append_empty_r (a : string) : a +:+ EmptyString = a.
Proof. induction a as [|ch a IH]; cbn; [reflexivity | f_equal; exact IH]. Qed.

Lemma has_special_append (a b : string) :
  has_special (a +:+ b) = has_special a || has_special b.
Proof.
  induction a as [|ch a IH]; cbn; [reflexivity|].
  now rewrite IH, orb_assoc.
Qed.

Lemma has_newline_append (a b : string) :
  has_newline (a +:+ b) = has_newline a || has_newline b.
Proof.
  induction a as [|ch a IH]; cbn; [reflexivity|].
  now rewrite IH, !orb_assoc.
Qed.

Lemma has_special_newline (s : string) :
  has_special s = false -> has_newline s = false.
Proof.
  induction s as [|ch s IH]; simpl; [reflexivity|].
  unfold is_special. intros Hs.
  apply orb_false_elim in Hs as [Hc Hs].
  apply orb_false_elim in Hc as [Hc Hlf].
  apply orb_false_elim in Hc as [Hc Hcr].
  apply orb_false_elim in Hc as [_ _].
  now rewrite Hcr, Hlf, (IH Hs).
Qed.

Lemma string_of_uint_no_special (d : Decimal.uint) :
  has_special (NilEmpty.string_of_uint d) = false.
Proof. induction d; simpl; try reflexivity; assumption. Qed.

Lemma str_int_plain (z : Z) : plain (str_int z).
Proof.
  unfold plain, str_int, NilZero.string_of_int, NilZero.string_of_uint.
  destruct (Z.to_int z) as [d|d]; destruct d; simpl;
    (split; [try reflexivity; apply string_of_uint_no_special | discriminate]).
Qed.

Lemma repr_integral_plain (q : Q) : plain (Demo.repr_integral q).
Proof.
  unfold Demo.repr_integral. destruct (str_int_plain (Qfloor q)) as [Hs Hne].
  split.
  - rewrite has_special_append, Hs. reflexivity.
  - destruct (str_int (Qfloor q)); [congruence | discriminate].
Qed.

Section CsvText.
Variable repr_float : Q -> string.
Hypothesis repr_float_plain : forall q, plain (repr_float q).

Lemma field_text_plain (v : pyval) : plain (field_text repr_float v).
Proof.
  destruct v as [z|[q| |[|]|]]; simpl.
  - apply str_int_plain.
  - apply repr_float_plain.
  - split; [reflexivity | discriminate].
  - split; [reflexivity | discriminate].
  - split; [reflexivity | discriminate].
  - split; [reflexivity | discriminate].
Qed.

Lemma csv_field_plain (s : string) : plain s -> csv_field s = s.
Proof. intros [Hs _]. unfold csv_field. now rewrite Hs. Qed.

(** A row of numbers is written as its field texts joined by commas:
    nothing is quoted. *)
Lemma csv_record_fields (r : row) :
  csv_record (map (field_text repr_float) r) =
  join_fields (map (field_text repr_float) r).
Proof.
  assert (Hmap : map csv_field (map (field_text repr_float) r)
                 = map (field_text repr_float) r).
  { induction r as [|v r IH]; [reflexivity|].
    cbn [map]. rewrite IH, (csv_field_plain _ (field_text_plain v)). reflexivity. }
  unfold csv_record. rewrite Hmap.
  destruct r as [|v r]; [reflexivity|].
  cbn [map]. destruct (field_text_plain v) as [_ Hne].
  destruct (field_text repr_float v); [congruence|].
  now destruct (map (field_text repr_float) r).
Qed.

Lemma join_fields_no_newline (r : row) :
  has_newline (join_fields (map (field_text repr_float) r)) = false.
Proof.
  induction r as [|v r IH]; [reflexivity|].
  pose proof (has_special_newline _ (proj1 (field_text_plain v))) as Hv.
  destruct r as [|v' r]; [exact Hv|].
  change (has_newline (field_text repr_float v
                       +:+ String delimiter
                             (join_fields (map (field_text repr_float) (v' :: r))))
          = false).
  rewrite has_newline_append, Hv. exact IH.
Qed.
End CsvText.

(** A line without a line end, followed by the terminator, is one line of
    the text. *)
Lemma splitlines_from_line (l cur rest : string) :
  has_newline l = false ->
  splitlines_from cur (l +:+ lineterminator +:+ rest) =
  (cur +:+ l) :: splitlines_from EmptyString rest.
Proof.
  revert cur. induction l as [|ch l IH]; intros cur Hl.
  - rewrite append_empty_r. reflexivity.
  - simpl in Hl.
    apply orb_false_elim in Hl as [Hc Hl].
    apply orb_false_elim in Hc as [Hcr Hlf].
    cbn [String.append splitlines_from]. rewrite Hcr, Hlf.
    rewrite (IH _ Hl), append_assoc. reflexivity.
Qed.

(** ** The CSV file *)

Section CsvSink.
Variable repr_float : Q -> string.

Lemma gridWithElevation2csv_text
    (grid : list row) (outfile : string) (fs : gmap string string) :
  gridWithElevation2csv repr_float grid outfile fs !! outfile =
  Some (("x,y,elevation" +:+ lineterminator) +:+ writerows repr_float grid).
Proof. unfold gridWithElevation2csv. now rewrite lookup_insert_eq. Qed.

Lemma writerows_lines (grid : list row) :
  (forall q, plain (repr_float q)) ->
  splitlines_from EmptyString (writerows repr_float grid) =
  map (row_line repr_float) grid.
Proof.
  intros Hplain. induction grid as [|r grid IH]; [reflexivity|].
  cbn [writerows map]. unfold writerow.
  rewrite (csv_record_fields _ Hplain), append_assoc.
  rewrite (splitlines_from_line _ _ _ (join_fields_no_newline _ Hplain r)).
  now rewrite IH.
Qed.

(** C8: for a grid of N rows of numbers, [gridWithElevation2csv] leaves
    in the destination a text of N+1 lines: the header [x,y,elevation],
    then the line of each row in the order of the grid.  The text does
    not depend on what the destination held, and no other file
    changes. *)
Theorem csv_header_then_one_line_per_row
    (grid : list row) (outfile : string) :
  (forall q, plain (repr_float q)) ->
  exists text : string,
    splitlines text = "x,y,elevation"%string :: map (row_line repr_float) grid /\
    length (splitlines text) = S (length grid) /\
    forall fs : gmap string string,
      let fs' := gridWithElevation2csv repr_float grid outfile fs in
      fs' !! outfile = Some text /\
      forall other : string, other <> outfile -> fs' !! other = fs !! other.
Proof.
  intros Hplain.
  exists (("x,y,elevation" +:+ lineterminator) +:+ writerows repr_float grid).
  assert (Hlines :
    splitlines (("x,y,elevation" +:+ lineterminator) +:+ writerows repr_float grid)
    = "x,y,elevation"%string :: map (row_line repr_float) grid).
  { unfold splitlines. rewrite append_assoc.
    rewrite (splitlines_from_line "x,y,elevation" EmptyString _ eq_refl).
    now rewrite (writerows_lines _ Hplain). }
  split; [exact Hlines|]. split.
  - rewrite Hlines. cbn [length]. now rewrite length_map.
  - intros fs. cbv zeta. split; [apply gridWithElevation2csv_text|].
    intros other Hother. unfold gridWithElevation2csv.
    now rewrite lookup_insert_ne.
Qed.

(** C10: for an empty grid the destination is still written, and
    holds the header line alone; for every grid the text begins with
    the header line, which is written first and does not depend on the
    rows. *)
Theorem empty_grid_writes_header_only
    (outfile : string) (fs : gmap string string) :
  gridWithElevation2csv repr_float [] outfile fs !! outfile
    = Some ("x,y,elevation" +:+ lineterminator) /\
  splitlines ("x,y,elevation" +:+ lineterminator) = ["x,y,elevation"%string] /\
  forall grid : list row,
    gridWithElevation2csv repr_float grid outfile fs !! outfile
    = Some (("x,y,elevation" +:+ lineterminator) +:+ writerows repr_float grid).
Proof.
  split; [|split].
  - rewrite gridWithElevation2csv_text. cbn [writerows].
    now rewrite append_empty_r.
  - reflexivity.
  - intros grid. apply gridWithElevation2csv_text.
Qed.
End CsvSink.

(** ** The theorems at work on the demo world *)

Lemma unit_pixels_read_floor_swapped_witness :
  rasters Demo.W !! "dem.tif"%string = Some Demo.dem /\
  GetGeoTransform Demo.dem = mkGT 0 1 0 0 0 1 /\
  pixels_read (fst (@sampleRasterFromPointsList Demo.osr Demo.W "dem.tif"
                      [mkPoint (PyInt 0) (3 # 2) (5 # 2)]))
  = [(Qfloor (5 # 2), Qfloor (3 # 2))] /\
  pixels_read (fst (@rasterValuesAtPoints Demo.osr LittleEndian Demo.W
                      "dem.tif" "one.geojson"))
  = [(Qfloor (5 # 2), Qfloor (3 # 2))].
Proof.
  assert (Hr : rasters Demo.W !! "dem.tif"%string = Some Demo.dem)
    by (vm_compute; reflexivity).
  destruct (@unit_pixels_read_floor_swapped Demo.osr Demo.W "dem.tif" Demo.dem
              Demo.int16_band Hr eq_refl eq_refl) as [Hlist Hvec].
  split; [exact Hr|]. split; [reflexivity|]. split.
  - apply (Hlist (PyInt 0) (3 # 2) (5 # 2) 0%Q). reflexivity.
  - apply (Hvec LittleEndian "one.geojson"%string 3857 (3 # 2) (5 # 2) 0%Q).
    + vm_compute. reflexivity.
    + reflexivity.
Defined.


Lemma pixel_index_floors_toward_minus_infinity_witness :
  exists pixX pixY : Z,
    pixels_read (fst (@sampleRasterFromPointsList Demo.osr Demo.W "dem.tif"
                        [Demo.left_of_raster]))
    = [(pixX, pixY)] /\
    (inject_Z pixX <= -1 # 2 < inject_Z (pixX + 1))%Q /\
    (inject_Z pixY <= 5 # 2 < inject_Z (pixY + 1))%Q.
Proof.
  assert (Hr : rasters Demo.W !! "dem.tif"%string = Some Demo.dem)
    by (vm_compute; reflexivity).
  assert (Hinv : InvGeoTransform (GetGeoTransform Demo.dem) = Some Demo.unit_pixels)
    by (vm_compute; reflexivity).
  destruct (@pixel_index_floors_toward_minus_infinity Demo.osr Demo.W "dem.tif"
              Demo.dem Demo.int16_band Demo.unit_pixels Hr eq_refl Hinv)
    as [Hlist _].
  destruct (Hlist (PyInt 1) (5 # 2) (-1 # 2)) as (pixX & pixY & Hreads & HX & HY).
  exists pixX, pixY. split; [exact Hreads|]. split.
  - destruct HX as [Hle Hlt]. split.
    + eapply Qle_trans; [exact Hle|]. vm_compute. discriminate.
    + eapply Qle_lt_trans; [|exact Hlt]. vm_compute. discriminate.
  - destruct HY as [Hle Hlt]. split.
    + eapply Qle_trans; [exact Hle|]. vm_compute. discriminate.
    + eapply Qle_lt_trans; [|exact Hlt]. vm_compute. discriminate.
Defined.

Lemma layer_without_crs_fails_witness :
  @GetSpatialRef Demo.osr Demo.nocrs_layer = None /\
  @rasterValuesAtPoints Demo.osr LittleEndian Demo.W "dem.tif" "nocrs.shp"
  = ([], inl MissingCRSError).
Proof.
  split; [reflexivity|].
  assert (Hl : vectors Demo.W !! "nocrs.shp"%string = Some Demo.nocrs_layer)
    by (vm_compute; reflexivity).
  assert (Hr : rasters Demo.W !! "dem.tif"%string = Some Demo.dem)
    by (vm_compute; reflexivity).
  destruct (@layer_without_crs_fails Demo.osr LittleEndian Demo.W "dem.tif"
              "nocrs.shp" Demo.nocrs_layer Hl eq_refl) as [Hfail _].
  exact (Hfail Demo.dem Demo.int16_band Hr eq_refl).
Defined.

Lemma singular_transform_fails_at_first_point_witness :
  (gt1 Demo.singular * gt5 Demo.singular
   - gt2 Demo.singular * gt4 Demo.singular == 0)%Q /\
  @sampleRasterFromPointsList Demo.osr Demo.W "singular.tif"
    [Demo.inside; Demo.origin]
  = ([TransformPoint (3 # 2) (5 # 2)], inl TransformInversionError).
Proof.
  assert (Hdet : (gt1 Demo.singular * gt5 Demo.singular
                  - gt2 Demo.singular * gt4 Demo.singular == 0)%Q)
    by reflexivity.
  split; [exact Hdet|].
  assert (Hr : rasters Demo.W !! "singular.tif"%string = Some Demo.singular_dem)
    by (vm_compute; reflexivity).
  destruct (@singular_transform_fails_at_first_point Demo.osr Demo.W
              "singular.tif" Demo.singular_dem Demo.int16_band Hr eq_refl Hdet)
    as (_ & _ & Hfirst & _).
  exact (Hfirst Demo.inside [Demo.origin]).
Defined.

Lemma read_outside_raster_aborts_run_witness :
  ~ in_raster Demo.int16_band (-1, 2) /\
  @sampleRasterFromPointsList Demo.osr Demo.W "dem.tif"
    ([Demo.inside] ++ Demo.left_of_raster :: [Demo.origin])
  = ([TransformPoint (3 # 2) (5 # 2); ReadRasterAt 2 1;
      TransformPoint (5 # 2) (-1 # 2); ReadRasterAt (-1) 2],
     inl PixelReadError).
Proof.
  assert (Hout : ~ in_raster Demo.int16_band (-1, 2)).
  { unfold in_raster. simpl. lia. }
  split; [exact Hout|].
  assert (Hr : rasters Demo.W !! "dem.tif"%string = Some Demo.dem)
    by (vm_compute; reflexivity).
  assert (Hinv : InvGeoTransform (GetGeoTransform Demo.dem) = Some Demo.unit_pixels)
    by (vm_compute; reflexivity).
  destruct (@read_outside_raster_aborts_run Demo.osr Demo.W "dem.tif" Demo.dem
              Demo.int16_band Demo.unit_pixels Hr eq_refl Hinv) as [Hlist _].
  apply (Hlist [Demo.inside] Demo.left_of_raster [Demo.origin]).
  - repeat constructor. vm_compute. eexists _, _. reflexivity.
  - exact Hout.
Defined.

Lemma csv_header_then_one_line_per_row_witness :
  exists text : string,
    splitlines text
    = ["x,y,elevation"; "0,100.0,200.0,350"; "1,101.0,200.0,-7"]%string /\
    length (splitlines text) = 3%nat /\
    gridWithElevation2csv Demo.repr_integral Demo.grid "out.csv"
      {[ "out.csv"%string := "stale"%string ]} !! "out.csv"%string = Some text.
Proof.
  destruct (csv_header_then_one_line_per_row Demo.repr_integral Demo.grid
              "out.csv"%string repr_integral_plain)
    as (text & Hlines & Hlen & Hfs).
  exists text. split; [exact Hlines|]. split; [exact Hlen|].
  exact (proj1 (Hfs {[ "out.csv"%string := "stale"%string ]})).
Defined.

Lemma list_rows_carry_input_points_witness :
  let rows :=
    [[PyInt 0; PyFloat (Finite (3 # 2)); PyFloat (Finite (5 # 2)); PyInt 350];
     [PyInt 2; PyFloat (Finite 0); PyFloat (Finite 0); PyInt 0]] in
  snd (@sampleRasterFromPointsList Demo.osr Demo.W "dem.tif"
         [Demo.inside; Demo.origin]) = inr rows /\
  length rows = length [Demo.inside; Demo.origin] /\
  Forall2 (fun p row => exists elevation : Z,
             row = [feature0 p; PyFloat (Finite (feature1 p));
                    PyFloat (Finite (feature2 p)); PyInt elevation])
          [Demo.inside; Demo.origin] rows.
Proof.
  cbv zeta.
  assert (Hrun : snd (@sampleRasterFromPointsList Demo.osr Demo.W "dem.tif"
                        [Demo.inside; Demo.origin])
                 = inr [[PyInt 0; PyFloat (Finite (3 # 2)); PyFloat (Finite (5 # 2));
                         PyInt 350];
                        [PyInt 2; PyFloat (Finite 0); PyFloat (Finite 0); PyInt 0]])
    by (vm_compute; reflexivity).
  split; [exact Hrun|].
  exact (proj1 (@list_rows_carry_input_points Demo.osr Demo.W "dem.tif"
                  [Demo.inside; Demo.origin]) _ Hrun).
Defined.

(** * Further properties *)

(** ** The 16-bit decoder *)

Lemma byte_val_range (b : byte) : 0 <= byte_val b < 256.
Proof.
  unfold byte_val. pose proof (Byte.to_N_bounded b) as Hb.
  split; [apply N2Z.is_nonneg|].
  change 256 with (Z.of_N 256). apply N2Z.inj_lt. lia.
Qed.

Lemma byte_val_inj (b c : byte) : byte_val b = byte_val c -> b = c.
Proof.
  unfold byte_val. intros Heq. apply N2Z.inj in Heq.
  pose proof (Byte.of_to_N b) as Hb. rewrite Heq, Byte.of_to_N in Hb.
  now injection Hb.
Qed.

Lemma lor_shiftl_8 (a b : Z) :
  0 <= a < 256 -> 0 <= b -> Z.lor a (Z.shiftl b 8) = a + 256 * b.
Proof.
  intros Ha Hb.
  assert (Hland : Z.land a (Z.shiftl b 8) = 0).
  { apply Z.bits_inj'. intros n Hn.
    rewrite Z.land_spec, Z.bits_0.
    destruct (Z.lt_ge_cases n 8) as [Hlt|Hge].
    - rewrite (Z.shiftl_spec_low _ _ _ Hlt). apply andb_false_r.
    - replace (Z.testbit a n) with false; [reflexivity|].
      symmetry. destruct (Z.eq_dec a 0) as [->|Hnz]; [apply Z.bits_0|].
      apply Z.bits_above_log2; [lia|].
      assert (Z.log2 a < 8); [|lia].
      apply Z.log2_lt_pow2; [lia|]. change (2 ^ 8) with 256. lia. }
  rewrite <- (Z.lxor_lor _ _ Hland), <- (Z.add_nocarry_lxor _ _ Hland).
  rewrite Z.shiftl_mul_pow2 by lia. change (2 ^ 8) with 256. lia.
Qed.

Lemma to_signed_16 (u : Z) :
  0 <= u < 65536 ->
  to_signed 16 u = if u <? 32768 then u else u - 65536.
Proof.
  intros Hu. unfold to_signed. change (16 - 1) with 15.
  change (Z.shiftl 1 16) with 65536.
  rewrite Z.testbit_eqb by lia. change (2 ^ 15) with 32768.
  destruct (Z.ltb_spec u 32768) as [Hlt|Hge].
  - rewrite Z.div_small by lia. reflexivity.
  - assert (u / 32768 = 1) as ->; [|reflexivity].
    symmetry. apply (Z.div_unique u 32768 1 (u - 32768)); lia.
Qed.

Lemma int16_le_arith (b0 b1 : byte) :
  int16_le b0 b1 =
  let u := byte_val b0 + 256 * byte_val b1 in
  if u <? 32768 then u else u - 65536.
Proof.
  pose proof (byte_val_range b0) as H0. pose proof (byte_val_range b1) as H1.
  unfold int16_le. rewrite lor_shiftl_8 by lia.
  apply to_signed_16. lia.
Qed.

Lemma int16_le_range (b0 b1 : byte) : -32768 <= int16_le b0 b1 < 32768.
Proof.
  pose proof (byte_val_range b0) as H0. pose proof (byte_val_range b1) as H1.
  rewrite int16_le_arith. cbv zeta.
  destruct (Z.ltb_spec (byte_val b0 + 256 * byte_val b1) 32768); lia.
Qed.

(** X1: the value of format ["<h"] is the integer between -32768 and
    32767 that is congruent to [b0 + 256 * b1] modulo 65536, and two
    different byte pairs never decode to the same value. *)
Theorem int16_le_value (b0 b1 : byte) :
  let u := byte_val b0 + 256 * byte_val b1 in
  int16_le b0 b1 = (if u <? 32768 then u else u - 65536) /\
  -32768 <= int16_le b0 b1 < 32768 /\
  (forall c0 c1 : byte, int16_le c0 c1 = int16_le b0 b1 -> c0 = b0 /\ c1 = b1).
Proof.
  cbv zeta.
  pose proof (byte_val_range b0) as H0. pose proof (byte_val_range b1) as H1.
  split; [apply int16_le_arith|]. split.
  - apply int16_le_range.
  - intros c0 c1. rewrite !int16_le_arith. cbv zeta.
    pose proof (byte_val_range c0) as Hc0. pose proof (byte_val_range c1) as Hc1.
    intros Heq.
    assert (byte_val c0 = byte_val b0 /\ byte_val c1 = byte_val b1) as [E0 E1].
    { destruct (Z.ltb_spec (byte_val c0 + 256 * byte_val c1) 32768);
        destruct (Z.ltb_spec (byte_val b0 + 256 * byte_val b1) 32768); lia. }
    split; now apply byte_val_inj.
Qed.

Section MoreRows.
Context `{Osr}.

Lemma list_body_row_int16
  (transform : Q -> Q -> Q * Q * Q) (reverse : option GeoTransform)
  (band : Band) (p : PointItem) (r : row) :
yields (list_body transform reverse band) p r ->
exists b0 b1 : byte,
  r = [feature0 p; PyFloat (Finite (feature1 p));
       PyFloat (Finite (feature2 p)); PyInt (int16_le b0 b1)].
Proof.
destruct reverse as [rev|].
- intros Hy. apply list_body_yields in Hy. cbv zeta in Hy.
  destruct Hy as (b0 & b1 & _ & ->). now exists b0, b1.
- unfold yields. rewrite list_body_no_inverse. discriminate.
Qed.

Lemma vector_body_row
  (host : byteorder) (transform : Q -> Q -> Q * Q * Q)
  (reverse : option GeoTransform) (band : Band) (f : Feature) (r : row) :
yields (vector_body host transform reverse band) f r ->
exists elevation : pyfloat,
  r = [PyFloat (Finite (item1 (transform (GetX f) (GetY f))));
       PyFloat (Finite (item0 (transform (GetX f) (GetY f))));
       PyFloat elevation].
Proof.
destruct reverse as [rev|].
- intros Hy. apply vector_body_yields in Hy. cbv zeta in Hy.
  destruct Hy as (b0 & b1 & b2 & b3 & _ & ->). now eexists.
- unfold yields. rewrite vector_body_no_inverse. discriminate.
Qed.

(** What a returning run of each function is made of. *)
Lemma sampleRasterFromPointsList_returns
  (w : World) (raster_file : string) (points_list : list PointItem)
  (rows : list row) :
snd (sampleRasterFromPointsList w raster_file points_list) = inr rows ->
exists r band,
  rasters w !! raster_file = Some r /\
  GetRasterBand r 1 = Some band /\
  Forall2 (yields (list_body
                     (CoordinateTransformation
                        (ImportFromEPSG 3857)
                        (ImportFromProj4 (GetProjection r)))
                     (InvGeoTransform (GetGeoTransform r)) band))
          points_list rows.
Proof.
intros Hrows. unfold sampleRasterFromPointsList in Hrows.
destruct (rasters w !! raster_file) as [r|] eqn:Hr; [|discriminate].
rewrite bind_attr_some in Hrows.
destruct (GetRasterBand r 1) as [band|] eqn:Hb; [|discriminate].
rewrite bind_attr_some in Hrows.
exists r, band. do 2 (split; [first [reflexivity | assumption]|]).
match type of Hrows with
| snd (for_each ?body _ _) = _ =>
    destruct (for_each_run body points_list []) as (n & _ & _ & Hres)
end.
rewrite Hrows in Hres. now destruct Hres as (_ & rows' & -> & HF).
Qed.

Lemma rasterValuesAtPoints_returns
  (host : byteorder) (w : World) (raster_file point_file : string)
  (rows : list row) :
snd (rasterValuesAtPoints host w raster_file point_file) = inr rows ->
exists r band lyr pointSR,
  rasters w !! raster_file = Some r /\
  GetRasterBand r 1 = Some band /\
  vectors w !! point_file = Some lyr /\
  GetSpatialRef lyr = Some pointSR /\
  Forall2 (yields (vector_body host
                     (CoordinateTransformation
                        pointSR (ImportFromProj4 (GetProjection r)))
                     (InvGeoTransform (GetGeoTransform r)) band))
          (features lyr) rows.
Proof.
intros Hrows. unfold rasterValuesAtPoints in Hrows.
destruct (rasters w !! raster_file) as [r|] eqn:Hr; [|discriminate].
rewrite bind_attr_some in Hrows.
destruct (GetRasterBand r 1) as [band|] eqn:Hb; [|discriminate].
rewrite bind_attr_some in Hrows.
destruct (vectors w !! point_file) as [lyr|] eqn:Hl; [|discriminate].
rewrite bind_attr_some in Hrows.
destruct (GetSpatialRef lyr) as [pointSR|] eqn:Hsr; [|discriminate].
rewrite bind_attr_some in Hrows.
exists r, band, lyr, pointSR.
do 4 (split; [first [reflexivity | assumption]|]).
match type of Hrows with
| snd (for_each ?body _ _) = _ =>
    destruct (for_each_run body (features lyr) []) as (n & _ & _ & Hres)
end.
rewrite Hrows in Hres. now destruct Hres as (_ & rows' & -> & HF).
Qed.

(** X2: every elevation that [sampleRasterFromPointsList] returns is a
  signed 16-bit value, between -32768 and 32767, whatever the data
  type of the raster. *)
Theorem list_elevations_are_int16
  (w : World) (raster_file : string) (points_list : list PointItem)
  (rows : list row) :
snd (sampleRasterFromPointsList w raster_file points_list) = inr rows ->
Forall (fun row => exists elevation : Z,
          row !! 3%nat = Some (PyInt elevation) /\
          -32768 <= elevation < 32768) rows.
Proof.
intros Hrows.
destruct (sampleRasterFromPointsList_returns _ _ _ _ Hrows)
  as (r & band & _ & _ & HF).
clear Hrows.
induction HF as [|p row l rows' Hy _ IH]; [constructor|].
constructor; [|exact IH].
apply list_body_row_int16 in Hy. destruct Hy as (b0 & b1 & ->).
exists (int16_le b0 b1). split; [reflexivity|].
apply int16_le_range.
Qed.

(** X3: the rows of [sampleRasterFromPointsList] have four fields, one
  more than the header that [gridWithElevation2csv] writes; the rows of
  [rasterValuesAtPoints] have three, as many as the header. *)
Theorem row_widths
  (w : World) (raster_file : string) :
(forall points_list rows,
   snd (sampleRasterFromPointsList w raster_file points_list) = inr rows ->
   Forall (fun row => length row = S (length header)) rows) /\
(forall host point_file rows,
   snd (rasterValuesAtPoints host w raster_file point_file) = inr rows ->
   Forall (fun row => length row = length header) rows).
Proof.
split.
- intros points_list rows Hrows.
  destruct (sampleRasterFromPointsList_returns _ _ _ _ Hrows)
    as (r & band & _ & _ & HF).
  clear Hrows.
induction HF as [|p row l rows' Hy _ IH]; [constructor|].
constructor; [|exact IH].
  apply list_body_row in Hy. now destruct Hy as (e & ->).
- intros host point_file rows Hrows.
  destruct (rasterValuesAtPoints_returns _ _ _ _ _ Hrows)
    as (r & band & lyr & pointSR & _ & _ & _ & _ & HF).
  clear Hrows.
  induction HF as [|f row l rows' Hy _ IH]; [constructor|].
  constructor; [|exact IH].
  apply vector_body_row in Hy. now destruct Hy as (e & ->).
Qed.
End MoreRows.

(** ** The inverse geotransform *)

Lemma InvGeoTransform_nonsingular (gt rev : GeoTransform) :
  InvGeoTransform gt = Some rev ->
  ~ (gt1 gt * gt5 gt - gt2 gt * gt4 gt == 0)%Q.
Proof.
  intros Hinv Hdet. rewrite (InvGeoTransform_degenerate _ Hdet) in Hinv.
  discriminate.
Qed.

Lemma InvGeoTransform_cases (gt rev : GeoTransform) :
  InvGeoTransform gt = Some rev ->
  ((gt2 gt == 0)%Q /\ (gt4 gt == 0)%Q /\ ~ (gt1 gt == 0)%Q /\ ~ (gt5 gt == 0)%Q /\
   rev = mkGT (- gt0 gt / gt1 gt) (1 / gt1 gt) 0 (- gt3 gt / gt5 gt) 0 (1 / gt5 gt))%Q
  \/
  (let inv_det := (1 / (gt1 gt * gt5 gt - gt2 gt * gt4 gt))%Q in
   rev = mkGT ((gt2 gt * gt3 gt - gt0 gt * gt5 gt) * inv_det)
              (gt5 gt * inv_det)
              (- gt2 gt * inv_det)
              ((- gt1 gt * gt3 gt + gt0 gt * gt4 gt) * inv_det)
              (- gt4 gt * inv_det)
              (gt1 gt * inv_det))%Q.
Proof.
  destruct gt as [g0 g1 g2 g3 g4 g5]. unfold InvGeoTransform.
  cbn [gt0 gt1 gt2 gt3 gt4 gt5].
  destruct (Qeq_bool g2 0 && Qeq_bool g4 0
            && negb (Qeq_bool g1 0) && negb (Qeq_bool g5 0)) eqn:Hfast.
  - intros [= <-]. left.
    apply andb_prop in Hfast as [Hfast H5].
    apply andb_prop in Hfast as [Hfast H1].
    apply andb_prop in Hfast as [H2 H4].
    apply Qeq_bool_eq in H2, H4.
    apply negb_true_iff, Qeq_bool_neq in H1.
    apply negb_true_iff, Qeq_bool_neq in H5.
    repeat split; assumption.
  - destruct (Qle_bool _ _); [discriminate|].
    intros [= <-]. right. reflexivity.
Qed.

Lemma affine_inverse (forward reverse : GeoTransform) :
  InvGeoTransform forward = Some reverse ->
  (forall u v : Q,
     let m := affine forward u v in
     (fst (affine reverse (fst m) (snd m)) == u)%Q /\
     (snd (affine reverse (fst m) (snd m)) == v)%Q) /\
  (forall x y : Q,
     let p := affine reverse x y in
     (fst (affine forward (fst p) (snd p)) == x)%Q /\
     (snd (affine forward (fst p) (snd p)) == y)%Q).
Proof.
  intros Hinv.
  pose proof (InvGeoTransform_nonsingular _ _ Hinv) as Hdet.
  destruct (InvGeoTransform_cases _ _ Hinv)
    as [(H2 & H4 & H1 & H5 & ->) | ->];
    destruct forward as [g0 g1 g2 g3 g4 g5];
    cbn [gt0 gt1 gt2 gt3 gt4 gt5] in *; unfold affine;
    cbn [gt0 gt1 gt2 gt3 gt4 gt5 fst snd].
  - split; intros a b; split;
      rewrite ?H2, ?H4; field; repeat split; assumption.
  - split; intros a b; split; field; exact Hdet.
Qed.

(** X4: when [gdal.InvGeoTransform] gives a [reverse] for the raster's
    [forward] geotransform, the determinant of [forward] is not zero and
    [reverse] undoes [forward] in both directions: pixel to map to pixel,
    and map to pixel to map. *)
Theorem reverse_geotransform_is_inverse (forward reverse : GeoTransform) :
  InvGeoTransform forward = Some reverse ->
  ~ (gt1 forward * gt5 forward - gt2 forward * gt4 forward == 0)%Q /\
  (forall u v : Q,
     let m := affine forward u v in
     (fst (affine reverse (fst m) (snd m)) == u)%Q /\
     (snd (affine reverse (fst m) (snd m)) == v)%Q) /\
  (forall x y : Q,
     let p := affine reverse x y in
     (fst (affine forward (fst p) (snd p)) == x)%Q /\
     (snd (affine forward (fst p) (snd p)) == y)%Q).
Proof.
  intros Hinv. split.
  - exact (InvGeoTransform_nonsingular _ _ Hinv).
  - exact (affine_inverse _ _ Hinv).
Qed.

Section OpenFailures.
Context `{Osr}.

(** X6: a pixel buffer of the wrong size ends the run with
  [struct.error]: on the list path when a read gives anything but two
  bytes, on the vector path anything but four.  The trace stops at that
  read and no rows are returned. *)
Theorem wrong_pixel_size_aborts_run
  (w : World) (raster_file : string) (r : Dataset) (band : Band)
  (reverse : GeoTransform) :
rasters w !! raster_file = Some r ->
GetRasterBand r 1 = Some band ->
InvGeoTransform (GetGeoTransform r) = Some reverse ->
let rasterSR := ImportFromProj4 (GetProjection r) in
(forall pre (p : PointItem) post (buf : list byte),
   let transform := CoordinateTransformation (ImportFromEPSG 3857) rasterSR in
   let pix q := pixel_of_point transform reverse (feature1 q) (feature2 q) in
   Forall (fun q => exists b0 b1,
             ReadRaster band (fst (pix q)) (snd (pix q)) = Some [b0; b1]) pre ->
   ReadRaster band (fst (pix p)) (snd (pix p)) = Some buf ->
   length buf <> 2%nat ->
   sampleRasterFromPointsList w raster_file (pre ++ p :: post) =
   (flat_map (fun q => sampling_events (feature1 q) (feature2 q) (pix q))
             (pre ++ [p]),
    inl StructError)) /\
(forall (host : byteorder) (point_file : string) (lyr : Layer)
        (pointSR : SpatialReference) pre (f : Feature) post (buf : list byte),
   vectors w !! point_file = Some lyr ->
   GetSpatialRef lyr = Some pointSR ->
   features lyr = pre ++ f :: post ->
   let transform := CoordinateTransformation pointSR rasterSR in
   let pix q := pixel_of_point transform reverse (GetX q) (GetY q) in
   Forall (fun q => exists b0 b1 b2 b3,
             ReadRaster band (fst (pix q)) (snd (pix q)) = Some [b0; b1; b2; b3])
          pre ->
   ReadRaster band (fst (pix f)) (snd (pix f)) = Some buf ->
   length buf <> 4%nat ->
   rasterValuesAtPoints host w raster_file point_file =
   (flat_map (fun q => sampling_events (GetX q) (GetY q) (pix q)) (pre ++ [f]),
    inl StructError)).
Proof.
intros Hr Hb Hinv. cbv zeta. split.
- intros pre p post buf Hpre Hread Hlen.
  rewrite (sampleRasterFromPointsList_open _ _ _ _ _ Hr Hb), Hinv.
  destruct (Forall_yields
              (list_body (CoordinateTransformation
                            (ImportFromEPSG 3857)
                            (ImportFromProj4 (GetProjection r)))
                         (Some reverse) band) pre) as [rows Hrows].
  { eapply Forall_impl; [exact Hpre|].
    intros q (b0 & b1 & Hq). eexists. apply list_body_yields.
    cbv zeta. exists b0, b1. split; [exact Hq | reflexivity]. }
  rewrite (for_each_fail _ _ _ _ StructError _ _ Hrows).
  + now rewrite list_events_of.
  + rewrite list_body_result. cbv zeta. rewrite Hread.
    destruct buf as [|c0 [|c1 [|c2 l]]]; simpl in *; congruence.
- intros host point_file lyr pointSR pre f post buf Hl Hsr Hfs Hpre Hread Hlen.
  rewrite (rasterValuesAtPoints_open _ _ _ _ _ _ _ _ Hr Hb Hl Hsr), Hinv, Hfs.
  destruct (Forall_yields
              (vector_body host
                 (CoordinateTransformation
                    pointSR (ImportFromProj4 (GetProjection r)))
                 (Some reverse) band) pre) as [rows Hrows].
  { eapply Forall_impl; [exact Hpre|].
    intros q (b0 & b1 & b2 & b3 & Hq). eexists. apply vector_body_yields.
    cbv zeta. exists b0, b1, b2, b3. split; [exact Hq | reflexivity]. }
  rewrite (for_each_fail _ _ _ _ StructError _ _ Hrows).
  + now rewrite vector_events_of.
  + rewrite vector_body_result. cbv zeta. rewrite Hread.
    destruct buf as [|c0 [|c1 [|c2 [|c3 [|c4 l]]]]]; simpl in *; congruence.
Qed.

(** X7: when the raster file cannot be opened, or has no band 1, both
  functions fail with [RasterOpenError] before anything else happens:
  no point is reprojected, no pixel is read, and on the vector path the
  point file plays no part. *)
Theorem unopened_raster_fails
  (w : World) (raster_file : string) :
rasters w !! raster_file = None \/
(exists r, rasters w !! raster_file = Some r /\ GetRasterBand r 1 = None) ->
(forall points_list,
   sampleRasterFromPointsList w raster_file points_list
   = ([], inl RasterOpenError)) /\
(forall host point_file,
   rasterValuesAtPoints host w raster_file point_file
   = ([], inl RasterOpenError)).
Proof.
intros [Hnone | (r & Hr & Hb)]; split; intros;
  unfold sampleRasterFromPointsList, rasterValuesAtPoints.
- now rewrite Hnone.
- now rewrite Hnone.
- now rewrite Hr, bind_attr_some, Hb.
- now rewrite Hr, bind_attr_some, Hb.
Qed.

(** X8: when the raster opens and the point file cannot be opened,
  [rasterValuesAtPoints] fails with [VectorOpenError] before any point
  is handled, also when the geotransform of the raster has no
  inverse. *)
Theorem unopened_point_file_fails
  (host : byteorder) (w : World) (raster_file point_file : string)
  (r : Dataset) (band : Band) :
rasters w !! raster_file = Some r ->
GetRasterBand r 1 = Some band ->
vectors w !! point_file = None ->
rasterValuesAtPoints host w raster_file point_file = ([], inl VectorOpenError).
Proof.
intros Hr Hb Hl. unfold rasterValuesAtPoints.
now rewrite Hr, bind_attr_some, Hb, bind_attr_some, Hl.
Qed.
End OpenFailures.

(** ** Runs over concatenated inputs *)

Lemma for_each_acc {A} (body : A -> M row) (l : list A) (acc : list row) :
  for_each body l acc =
  (fst (for_each body l []),
   match snd (for_each body l []) with
   | inl e => inl e
   | inr rows => inr (acc ++ rows)
   end).
Proof.
  revert acc. induction l as [|x l IH]; intros acc.
  - simpl. unfold ret. now rewrite app_nil_r.
  - rewrite !for_each_cons. unfold bind.
    destruct (body x) as [t [e|r]]; [reflexivity|].
    rewrite (IH (acc ++ [r])), (IH ([] ++ [r])). cbn [fst snd].
    destruct (snd (for_each body l [])) as [e|rows]; [reflexivity|].
    now rewrite <- app_assoc.
Qed.

Lemma for_each_app {A} (body : A -> M row) (l1 l2 : list A) :
  for_each body (l1 ++ l2) [] =
  match for_each body l1 [] with
  | (t1, inl e) => (t1, inl e)
  | (t1, inr rows1) =>
      (t1 ++ fst (for_each body l2 []),
       match snd (for_each body l2 []) with
       | inl e => inl e
       | inr rows2 => inr (rows1 ++ rows2)
       end)
  end.
Proof.
  induction l1 as [|x l1 IH].
  - simpl. now rewrite (surjective_pairing (for_each body l2 [])) at 1;
      destruct (snd (for_each body l2 [])).
  - cbn [app]. rewrite !for_each_cons. unfold bind.
    destruct (body x) as [t [e|r]]; [reflexivity|].
    rewrite (for_each_acc body (l1 ++ l2)), (for_each_acc body l1), IH.
    cbn [fst snd].
    destruct (for_each body l1 []) as [t1 [e|rows1]]; cbn [fst snd];
      [reflexivity|].
    rewrite <- app_assoc.
    destruct (snd (for_each body l2 [])) as [e|rows2]; [reflexivity|].
    now rewrite <- app_assoc.
Qed.

Section Concatenation.
Context `{Osr}.

(** X9: sampling a concatenation of two lists is sampling the first and
  then the second.  If the first run fails, the run on the whole list
  is that same failed run; if it returns rows, the whole run has the
  events of both runs in sequence, fails as the second run fails, and
  otherwise returns the rows of the first followed by the rows of the
  second. *)
Theorem sampling_of_concatenation
  (w : World) (raster_file : string) (l1 l2 : list PointItem) :
let run := sampleRasterFromPointsList w raster_file in
(forall e, snd (run l1) = inl e -> run (l1 ++ l2) = run l1) /\
(forall rows1, snd (run l1) = inr rows1 ->
   run (l1 ++ l2) =
   (fst (run l1) ++ fst (run l2),
    match snd (run l2) with
    | inl e => inl e
    | inr rows2 => inr (rows1 ++ rows2)
    end)).
Proof.
cbv zeta. unfold sampleRasterFromPointsList.
destruct (rasters w !! raster_file) as [r|];
  [rewrite !bind_attr_some | split; [reflexivity | discriminate]].
destruct (GetRasterBand r 1) as [band|];
  [rewrite !bind_attr_some | split; [reflexivity | discriminate]].
rewrite for_each_app.
match goal with
| |- context [for_each ?body l1 []] =>
    destruct (for_each body l1 []) as [t1 [e1|rows]]
end; cbn [fst snd]; split.
- reflexivity.
- discriminate.
- discriminate.
- now intros rows1 [= <-].
Qed.





End Concatenation.

(** ** Reading the CSV text back *)

Lemma has_special_cons (c : ascii) (s : string) :
  has_special (String c s) = false ->
  Ascii.eqb c delimiter = false /\ has_special s = false.
Proof.
  cbn [has_special]. unfold is_special. intros Hs.
  apply orb_false_elim in Hs as [Hc Hs].
  apply orb_false_elim in Hc as [Hc _].
  apply orb_false_elim in Hc as [Hc _].
  apply orb_false_elim in Hc as [Hc _].
  now split.
Qed.

Lemma split_fields_from_last (f cur : string) :
  has_special f = false -> split_fields_from cur f = [cur +:+ f].
Proof.
  revert cur. induction f as [|c f IH]; intros cur Hf.
  - now rewrite append_empty_r.
  - apply has_special_cons in Hf as [Hc Hf].
    cbn [split_fields_from]. rewrite Hc, (IH _ Hf), append_assoc. reflexivity.
Qed.

Lemma split_fields_from_field (f cur rest : string) :
  has_special f = false ->
  split_fields_from cur (f +:+ String delimiter rest) =
  (cur +:+ f) :: split_fields_from EmptyString rest.
Proof.
  revert cur. induction f as [|c f IH]; intros cur Hf.
  - rewrite append_empty_r. reflexivity.
  - apply has_special_cons in Hf as [Hc Hf].
    cbn [String.append split_fields_from]. rewrite Hc, (IH _ Hf), append_assoc.
    reflexivity.
Qed.

Lemma split_join_fields (fields : list string) :
  Forall (fun f => has_special f = false) fields ->
  fields <> [] ->
  split_fields (join_fields fields) = fields.
Proof.
  unfold split_fields. intros HF Hne.
  induction HF as [|f rest Hf HF IH]; [congruence|].
  destruct rest as [|g rest].
  - cbn [join_fields]. now rewrite (split_fields_from_last _ _ Hf).
  - change (join_fields (f :: g :: rest))
      with (f +:+ String delimiter (join_fields (g :: rest))).
    rewrite (split_fields_from_field _ _ _ Hf). cbn [String.append].
    now rewrite IH.
Qed.

Section ReadBack.
Variable repr_float : Q -> string.
Hypothesis repr_float_plain : forall q, plain (repr_float q).

Lemma split_row_line (r : row) :
r <> [] ->
split_fields (row_line repr_float r) = map (field_text repr_float) r.
Proof.
intros Hne. unfold row_line. apply split_join_fields.
- apply Forall_map, Forall_forall. intros v _.
  apply (field_text_plain _ repr_float_plain v).
- now destruct r.
Qed.

Lemma csv_text_lines (grid : list row) :
splitlines (("x,y,elevation" +:+ lineterminator) +:+ writerows repr_float grid)
= "x,y,elevation"%string :: map (row_line repr_float) grid.
Proof.
unfold splitlines. rewrite append_assoc.
rewrite (splitlines_from_line "x,y,elevation" EmptyString _ eq_refl).
now rewrite (writerows_lines _ _ repr_float_plain).
Qed.
End ReadBack.

(** X11: read back by lines and split at commas, the file that
    [gridWithElevation2csv] writes for rows of numbers, none of them
    empty, gives the three header fields and then, row by row and in
    order, the texts of the fields of the grid. *)
Theorem csv_fields_read_back
    (repr_float : Q -> string) (grid : list row) (outfile : string)
    (fs : gmap string string) :
  (forall q, plain (repr_float q)) ->
  Forall (fun r => r <> []) grid ->
  exists text : string,
    gridWithElevation2csv repr_float grid outfile fs !! outfile = Some text /\
    map split_fields (splitlines text)
    = header :: map (map (field_text repr_float)) grid.
Proof.
  intros Hplain Hgrid.
  exists (("x,y,elevation" +:+ lineterminator) +:+ writerows repr_float grid).
  split; [apply gridWithElevation2csv_text|].
  rewrite (csv_text_lines _ Hplain). cbn [map]. f_equal.
  induction Hgrid as [|r grid Hr _ IH]; [reflexivity|].
  cbn [map]. now rewrite (split_row_line _ Hplain _ Hr), IH.
Qed.

(** ** The program *)

Section Program.
Context `{Osr}.
Variable repr_float : Q -> string.

(** X12: the program writes its output only after the sampling has
  returned.  If [rasterValuesAtPoints] fails, the program ends with
  that failure and every file is as before, the output file neither
  created nor truncated.  If it returns, the output file holds the
  header line and then one line per row of the grid, one row per
  feature of the point layer. *)
Theorem main_writes_after_sampling
  (host : byteorder) (w : World) (inraster inpoints outfile : string)
  (fs : gmap string string) :
(forall q, plain (repr_float q)) ->
let run := rasterValuesAtPoints host w inraster inpoints in
match snd run with
| inl e =>
    main repr_float host w inraster inpoints outfile fs = (fst run, inl e, fs)
| inr grid =>
    exists text : string,
      main repr_float host w inraster inpoints outfile fs
      = (fst run, inr tt, <[outfile := text]> fs) /\
      splitlines text
      = "x,y,elevation"%string :: map (row_line repr_float) grid /\
      forall lyr, vectors w !! inpoints = Some lyr ->
                  length (splitlines text) = S (length (features lyr))
end.
Proof.
intros Hplain. cbv zeta. unfold main.
destruct (rasterValuesAtPoints host w inraster inpoints) as [tr [e|grid]] eqn:Hrun;
  cbn [fst snd]; [reflexivity|].
exists (("x,y,elevation" +:+ lineterminator) +:+ writerows repr_float grid).
split; [reflexivity|].
rewrite (csv_text_lines _ Hplain). split; [reflexivity|].
intros lyr Hl. cbn [length]. f_equal. rewrite length_map.
assert (Hrows : snd (rasterValuesAtPoints host w inraster inpoints) = inr grid)
  by now rewrite Hrun.
destruct (rasterValuesAtPoints_returns _ _ _ _ _ Hrows)
  as (r & band & lyr' & pointSR & _ & _ & Hl' & _ & HF).
rewrite Hl in Hl'. injection Hl' as <-.
symmetry. eapply Forall2_length. exact HF.
Qed.
End Program.

(** ** The further theorems at work on the demo world *)

Lemma int16_le_value_witness :
  int16_le x5e x01 = 350 /\
  (forall c0 c1 : byte, int16_le c0 c1 = 350 -> c0 = x5e /\ c1 = x01).
Proof.
  destruct (int16_le_value x5e x01) as (Hval & _ & Hinj).
  split; [exact Hval | exact Hinj].
Defined.

Lemma list_elevations_are_int16_witness :
  Forall (fun row => exists elevation : Z,
            row !! 3%nat = Some (PyInt elevation) /\
            -32768 <= elevation < 32768)
         [[PyInt 0; PyFloat (Finite (3 # 2)); PyFloat (Finite (5 # 2)); PyInt 350];
          [PyInt 2; PyFloat (Finite 0); PyFloat (Finite 0); PyInt 0]].
Proof.
  apply (@list_elevations_are_int16 Demo.osr Demo.W "dem.tif"
           [Demo.inside; Demo.origin]).
  vm_compute. reflexivity.
Defined.

Lemma row_widths_witness :
  Forall (fun row => length row = S (length header))
         [[PyInt 0; PyFloat (Finite (3 # 2)); PyFloat (Finite (5 # 2)); PyInt 350]] /\
  Forall (fun row => length row = length header)
         [[PyFloat (Finite (3 # 2)); PyFloat (Finite (5 # 2)); PyFloat (Finite 1)];
          [PyFloat (Finite 0); PyFloat (Finite (1 # 2)); PyFloat (Finite 1)]].
Proof.
  split.
  - apply (proj1 (@row_widths Demo.osr Demo.W "dem.tif") [Demo.inside]).
    vm_compute. reflexivity.
  - apply (proj2 (@row_widths Demo.osr Demo.W "float.tif")
             LittleEndian "points.geojson"%string).
    vm_compute. reflexivity.
Defined.

Lemma reverse_geotransform_is_inverse_witness :
  InvGeoTransform Demo.north_up = Some Demo.north_up /\
  (fst (affine Demo.north_up (fst (affine Demo.north_up (5 # 2) (3 # 2)))
                             (snd (affine Demo.north_up (5 # 2) (3 # 2))))
   == 5 # 2)%Q.
Proof.
  assert (Hinv : InvGeoTransform Demo.north_up = Some Demo.north_up)
    by (vm_compute; reflexivity).
  split; [exact Hinv|].
  destruct (reverse_geotransform_is_inverse _ _ Hinv) as (_ & Hleft & _).
  exact (proj1 (Hleft (5 # 2) (3 # 2))).
Defined.

Lemma wrong_pixel_size_aborts_run_witness :
  ReadRaster Demo.float32_band 2 1 = Some [x00; x00; x80; x3f] /\
  @sampleRasterFromPointsList Demo.osr Demo.W "float.tif"
    ([] ++ Demo.inside :: [Demo.origin])
  = ([TransformPoint (3 # 2) (5 # 2); ReadRasterAt 2 1], inl StructError).
Proof.
  split; [reflexivity|].
  assert (Hr : rasters Demo.W !! "float.tif"%string = Some Demo.float_dem)
    by (vm_compute; reflexivity).
  assert (Hinv : InvGeoTransform (GetGeoTransform Demo.float_dem)
                 = Some Demo.unit_pixels) by (vm_compute; reflexivity).
  destruct (@wrong_pixel_size_aborts_run Demo.osr Demo.W "float.tif"
              Demo.float_dem Demo.float32_band Demo.unit_pixels Hr eq_refl Hinv)
    as [Hlist _].
  apply (Hlist [] Demo.inside [Demo.origin] [x00; x00; x80; x3f]).
  - constructor.
  - vm_compute. reflexivity.
  - discriminate.
Defined.

Lemma unopened_raster_fails_witness :
  rasters Demo.W !! "missing.tif"%string = None /\
  @sampleRasterFromPointsList Demo.osr Demo.W "missing.tif" [Demo.inside]
  = ([], inl RasterOpenError) /\
  @rasterValuesAtPoints Demo.osr LittleEndian Demo.W "missing.tif" "nocrs.shp"
  = ([], inl RasterOpenError).
Proof.
  assert (Hnone : rasters Demo.W !! "missing.tif"%string = None)
    by (vm_compute; reflexivity).
  destruct (@unopened_raster_fails Demo.osr Demo.W "missing.tif" (or_introl Hnone))
    as [Hlist Hvec].
  split; [exact Hnone|]. split; [apply Hlist | apply Hvec].
Defined.

Lemma unopened_point_file_fails_witness :
  vectors Demo.W !! "missing.geojson"%string = None /\
  @rasterValuesAtPoints Demo.osr LittleEndian Demo.W "singular.tif" "missing.geojson"
  = ([], inl VectorOpenError).
Proof.
  assert (Hnone : vectors Demo.W !! "missing.geojson"%string = None)
    by (vm_compute; reflexivity).
  assert (Hr : rasters Demo.W !! "singular.tif"%string = Some Demo.singular_dem)
    by (vm_compute; reflexivity).
  split; [exact Hnone|].
  exact (@unopened_point_file_fails Demo.osr LittleEndian Demo.W "singular.tif"
           "missing.geojson" Demo.singular_dem Demo.int16_band Hr eq_refl Hnone).
Defined.

Lemma sampling_of_concatenation_witness :
  let run := @sampleRasterFromPointsList Demo.osr Demo.W "dem.tif" in
  run ([Demo.inside] ++ [Demo.origin]) =
  (fst (run [Demo.inside]) ++ fst (run [Demo.origin]),
   inr ([[PyInt 0; PyFloat (Finite (3 # 2)); PyFloat (Finite (5 # 2)); PyInt 350]]
        ++ [[PyInt 2; PyFloat (Finite 0); PyFloat (Finite 0); PyInt 0]])) /\
  run ([Demo.left_of_raster] ++ [Demo.origin]) = run [Demo.left_of_raster].
Proof.
  cbv zeta.
  destruct (@sampling_of_concatenation Demo.osr Demo.W "dem.tif"
              [Demo.inside] [Demo.origin]) as [_ Hok].
  destruct (@sampling_of_concatenation Demo.osr Demo.W "dem.tif"
              [Demo.left_of_raster] [Demo.origin]) as [Hfail _].
  split.
  - rewrite (Hok [[PyInt 0; PyFloat (Finite (3 # 2)); PyFloat (Finite (5 # 2));
                   PyInt 350]]) by (vm_compute; reflexivity).
    f_equal.
  - apply (Hfail PixelReadError). vm_compute. reflexivity.
Defined.

Lemma csv_fields_read_back_witness :
  exists text : string,
    gridWithElevation2csv Demo.repr_integral Demo.grid "out.csv" Demo.stale_fs
      !! "out.csv"%string = Some text /\
    map split_fields (splitlines text)
    = [["x"; "y"; "elevation"];
       ["0"; "100.0"; "200.0"; "350"];
       ["1"; "101.0"; "200.0"; "-7"]]%string.
Proof.
  apply (csv_fields_read_back Demo.repr_integral Demo.grid "out.csv"%string
           Demo.stale_fs repr_integral_plain).
  repeat constructor; discriminate.
Defined.

Lemma main_writes_after_sampling_witness :
  (exists text : string,
     @main Demo.osr Demo.repr_integral LittleEndian Demo.W_whole
       "float.tif" "whole.geojson" "out.csv" Demo.stale_fs
     = ([TransformPoint 1 2; ReadRasterAt 2 1; TransformPoint 3 0; ReadRasterAt 0 3],
        inr tt, <[ "out.csv"%string := text ]> Demo.stale_fs) /\
     splitlines text = ["x,y,elevation"; "2.0,1.0,1.0"; "0.0,3.0,1.0"]%string) /\
  @main Demo.osr Demo.repr_integral LittleEndian Demo.W_whole
    "float.tif" "nowhere.geojson" "out.csv" Demo.stale_fs
  = ([], inl VectorOpenError, Demo.stale_fs).
Proof.
  split.
  - pose proof (@main_writes_after_sampling Demo.osr Demo.repr_integral
                  LittleEndian Demo.W_whole "float.tif" "whole.geojson" "out.csv"
                  Demo.stale_fs repr_integral_plain) as Hmain.
    cbv zeta in Hmain.
    replace (@rasterValuesAtPoints Demo.osr LittleEndian Demo.W_whole
               "float.tif" "whole.geojson")
      with ([TransformPoint 1 2; ReadRasterAt 2 1;
             TransformPoint 3 0; ReadRasterAt 0 3],
            @inr error (list row)
              [[PyFloat (Finite 2); PyFloat (Finite 1); PyFloat (Finite 1)];
               [PyFloat (Finite 0); PyFloat (Finite 3); PyFloat (Finite 1)]])
      in Hmain by (vm_compute; reflexivity).
    cbn [fst snd] in Hmain. destruct Hmain as (text & Hm & Hlines & _).
    exists text. split; [exact Hm | exact Hlines].
  - pose proof (@main_writes_after_sampling Demo.osr Demo.repr_integral
                  LittleEndian Demo.W_whole "float.tif" "nowhere.geojson" "out.csv"
                  Demo.stale_fs repr_integral_plain) as Hmain.
    cbv zeta in Hmain.
    replace (@rasterValuesAtPoints Demo.osr LittleEndian Demo.W_whole
               "float.tif" "nowhere.geojson")
      with (@nil event, @inl error (list row) VectorOpenError)
      in Hmain by (vm_compute; reflexivity).
    exact Hmain.
Defined.

(** ** The two decoders, arithmetically *)

Lemma lor_shiftl_add (a b n : Z) :
  0 <= n -> 0 <= a < 2 ^ n -> 0 <= b ->
  Z.lor a (Z.shiftl b n) = a + b * 2 ^ n.
Proof.
  intros Hn Ha Hb.
  assert (Hland : Z.land a (Z.shiftl b n) = 0).
  { apply Z.bits_inj'. intros k Hk.
    rewrite Z.land_spec, Z.bits_0.
    destruct (Z.lt_ge_cases k n) as [Hlt|Hge].
    - rewrite (Z.shiftl_spec_low _ _ _ Hlt). apply andb_false_r.
    - replace (Z.testbit a k) with false; [reflexivity|].
      symmetry. destruct (Z.eq_dec a 0) as [->|Hnz]; [apply Z.bits_0|].
      apply Z.bits_above_log2; [lia|].
      assert (Z.log2 a < n); [|lia].
      apply Z.log2_lt_pow2; lia. }
  rewrite <- (Z.lxor_lor _ _ Hland), <- (Z.add_nocarry_lxor _ _ Hland).
  now rewrite Z.shiftl_mul_pow2 by lia.
Qed.

(** The word of four bytes is their sum weighted by powers of 256. *)
Lemma word32_arith (host : byteorder) (b0 b1 b2 b3 : byte) :
  word32 host b0 b1 b2 b3 =
  match host with
  | LittleEndian =>
      byte_val b0 + 256 * byte_val b1 + 65536 * byte_val b2
      + 16777216 * byte_val b3
  | BigEndian =>
      byte_val b3 + 256 * byte_val b2 + 65536 * byte_val b1
      + 16777216 * byte_val b0
  end.
Proof.
  assert (Hw : forall lo ml mh hi : byte,
    Z.lor (Z.lor (byte_val lo) (Z.shiftl (byte_val ml) 8))
          (Z.lor (Z.shiftl (byte_val mh) 16) (Z.shiftl (byte_val hi) 24))
    = byte_val lo + 256 * byte_val ml + 65536 * byte_val mh
      + 16777216 * byte_val hi).
  { intros lo ml mh hi.
    pose proof (byte_val_range lo) as H0. pose proof (byte_val_range ml) as H1.
    pose proof (byte_val_range mh) as H2. pose proof (byte_val_range hi) as H3.
    rewrite (lor_shiftl_add (byte_val lo) (byte_val ml) 8) by lia.
    rewrite (Z.shiftl_mul_pow2 (byte_val mh) 16) by lia.
    rewrite (lor_shiftl_add (byte_val mh * 2 ^ 16) (byte_val hi) 24) by lia.
    replace (byte_val mh * 2 ^ 16 + byte_val hi * 2 ^ 24)
      with (Z.shiftl (byte_val mh + 256 * byte_val hi) 16)
      by (rewrite Z.shiftl_mul_pow2 by lia; lia).
    rewrite lor_shiftl_add by lia. lia. }
  destruct host; unfold word32; apply Hw.
Qed.

Lemma word32_range (host : byteorder) (b0 b1 b2 b3 : byte) :
  0 <= word32 host b0 b1 b2 b3 < 2 ^ 32.
Proof.
  rewrite word32_arith.
  pose proof (byte_val_range b0). pose proof (byte_val_range b1).
  pose proof (byte_val_range b2). pose proof (byte_val_range b3).
  destruct host; lia.
Qed.

Lemma Qpower_2_scaled (e : Z) :
  0 <= e ->
  (Qpower 2 (e - 150) * inject_Z (2 ^ 150) == inject_Z (2 ^ e))%Q.
Proof.
  intros He.
  replace (e - 150) with (e + -150) by lia.
  rewrite Qpower_plus by discriminate.
  rewrite (Zpower_Qpower 2 e He).
  assert (Hone : (Qpower 2 (-150) * inject_Z (2 ^ 150) == 1)%Q)
    by (vm_compute; reflexivity).
  rewrite <- Qmult_assoc, Hone. apply Qmult_1_r.
Qed.

Lemma Qpower_2_subnormal :
  (Qpower 2 (-149) * inject_Z (2 ^ 149) == 1)%Q.
Proof. vm_compute. reflexivity. Qed.

Lemma Qscaled (a p k r : Q) :
  (p * k == r)%Q ->
  (a * p * k == a * r)%Q /\ (- (a * p) * k == - (a * r))%Q.
Proof. intros H. rewrite <- H. split; ring. Qed.

(** The bit-level decoder computes the IEEE 754 value of the pattern. *)
Lemma binary32_value_denotes (bits : Z) :
  0 <= bits < 2 ^ 32 -> binary32_denotes bits (binary32_value bits).
Proof.
  intros Hbits. unfold binary32_denotes, binary32_value.
  assert (Hs : Z.testbit bits 31 = (bits / 2 ^ 31 =? 1)).
  { rewrite Z.testbit_eqb by lia.
    assert (0 <= bits / 2 ^ 31 < 2).
    { split; [apply Z.div_pos; lia|]. apply Z.div_lt_upper_bound; lia. }
    now rewrite Z.mod_small by lia. }
  assert (He : Z.land (Z.shiftr bits 23) 255 = (bits / 2 ^ 23) mod 2 ^ 8).
  { rewrite Z.shiftr_div_pow2 by lia. change 255 with (Z.ones 8).
    now rewrite Z.land_ones by lia. }
  assert (Hm : Z.land bits 8388607 = bits mod 2 ^ 23).
  { change 8388607 with (Z.ones 23). now rewrite Z.land_ones by lia. }
  rewrite Hs, He, Hm.
  set (s := bits / 2 ^ 31). set (e := (bits / 2 ^ 23) mod 2 ^ 8).
  set (m := bits mod 2 ^ 23).
  assert (Hebound : 0 <= e < 256) by (apply Z.mod_pos_bound; lia).
  destruct (Z.eqb_spec e 255) as [He255|He255].
  - destruct (Z.eqb_spec m 0) as [Hm0|Hm0]; repeat split; assumption.
  - destruct (Z.eqb_spec e 0) as [He0|He0].
    + destruct ((m =? 0) && (s =? 1)) eqn:Hz.
      * apply andb_prop in Hz as [Hz1 Hz2].
        apply Z.eqb_eq in Hz1, Hz2. repeat split; assumption.
      * split; [lia|]. split.
        { intros (Hs1 & _ & Hm0). rewrite Hs1, Hm0 in Hz. discriminate. }
        split; [apply Qred_complete, Qred_correct|].
        rewrite Qred_correct.
        destruct (Qscaled (inject_Z m) _ _ _ Qpower_2_subnormal) as [Hpos Hneg].
        destruct (s =? 1).
        -- replace (-1 * m) with (- m) by lia.
           rewrite Hneg, inject_Z_opp. ring.
        -- replace (1 * m) with m by lia.
           rewrite Hpos. ring.
    + split; [lia|]. split; [intros (_ & Habs & _); contradiction|].
      split; [apply Qred_complete, Qred_correct|].
      replace (e =? 0) with false by (symmetry; now apply Z.eqb_neq).
      rewrite Qred_correct. change 8388608 with (2 ^ 23).
      destruct (Qscaled (inject_Z (2 ^ 23 + m)) _ _ _
                  (Qpower_2_scaled e (proj1 Hebound))) as [Hpos Hneg].
      destruct (s =? 1).
      * replace (-1 * (2 ^ 23 + m) * 2 ^ e) with (- ((2 ^ 23 + m) * 2 ^ e)) by ring.
        rewrite Hneg, inject_Z_opp, inject_Z_mult. reflexivity.
      * replace (1 * (2 ^ 23 + m) * 2 ^ e) with ((2 ^ 23 + m) * 2 ^ e) by ring.
        rewrite Hpos, inject_Z_mult. reflexivity.
Qed.

Section Decoding.
Context `{Osr}.

(** C3: the two paths decode the bytes of a pixel with two fixed
  layouts.  [sampleRasterFromPointsList] returns rows exactly when
  every read gives two bytes, and the elevation of a row is their
  signed 16-bit little-endian value: the integer from -32768 to 32767
  congruent to [b0 + 256 * b1] modulo 65536.  [rasterValuesAtPoints]
  returns rows exactly when every read gives four bytes, and the
  elevation is the IEEE 754 binary32 value of the 32-bit word they
  hold in host byte order, with sign [s], biased exponent [e] and
  fraction [m]: a finite value scaled by a power of two (subnormal when
  [e] is 0), negative zero, an infinity or NaN.  The bytes 01 00 decode
  to 1 on the first path, and the bytes of the binary32 1.0 decode to
  1.0 on the second. *)
Theorem pixel_bytes_decoded_per_path
  (w : World) (raster_file : string) (r : Dataset) (band : Band)
  (reverse : GeoTransform) :
rasters w !! raster_file = Some r ->
GetRasterBand r 1 = Some band ->
InvGeoTransform (GetGeoTransform r) = Some reverse ->
let rasterSR := ImportFromProj4 (GetProjection r) in
let val (b : byte) := Z.of_N (Byte.to_N b) in
(forall points_list : list PointItem,
   let transform := CoordinateTransformation (ImportFromEPSG 3857) rasterSR in
   let pix p := pixel_of_point transform reverse (feature1 p) (feature2 p) in
   let run := sampleRasterFromPointsList w raster_file points_list in
   (Forall (fun p => exists b0 b1,
              ReadRaster band (fst (pix p)) (snd (pix p)) = Some [b0; b1])
           points_list ->
    exists rows, snd run = inr rows) /\
   (forall rows, snd run = inr rows ->
      Forall2 (fun p row => exists (b0 b1 : byte) (elevation : Z),
                 ReadRaster band (fst (pix p)) (snd (pix p)) = Some [b0; b1] /\
                 row = [feature0 p; PyFloat (Finite (feature1 p));
                        PyFloat (Finite (feature2 p)); PyInt elevation] /\
                 -32768 <= elevation < 32768 /\
                 (elevation - (val b0 + 256 * val b1)) mod 65536 = 0)
              points_list rows)) /\
(forall (host : byteorder) (point_file : string) (lyr : Layer)
        (pointSR : SpatialReference),
   vectors w !! point_file = Some lyr ->
   GetSpatialRef lyr = Some pointSR ->
   let transform := CoordinateTransformation pointSR rasterSR in
   let pix f := pixel_of_point transform reverse (GetX f) (GetY f) in
   let run := rasterValuesAtPoints host w raster_file point_file in
   (Forall (fun f => exists b0 b1 b2 b3,
              ReadRaster band (fst (pix f)) (snd (pix f)) = Some [b0; b1; b2; b3])
           (features lyr) ->
    exists rows, snd run = inr rows) /\
   (forall rows, snd run = inr rows ->
      Forall2 (fun f row => exists (b0 b1 b2 b3 : byte) (elevation : pyfloat),
                 ReadRaster band (fst (pix f)) (snd (pix f))
                   = Some [b0; b1; b2; b3] /\
                 row = [PyFloat (Finite (item1 (transform (GetX f) (GetY f))));
                        PyFloat (Finite (item0 (transform (GetX f) (GetY f))));
                        PyFloat elevation] /\
                 let bits :=
                   match host with
                   | LittleEndian =>
                       val b0 + 256 * val b1 + 65536 * val b2 + 16777216 * val b3
                   | BigEndian =>
                       val b3 + 256 * val b2 + 65536 * val b1 + 16777216 * val b0
                   end in
                 let s := bits / 2 ^ 31 in
                 let e := (bits / 2 ^ 23) mod 2 ^ 8 in
                 let m := bits mod 2 ^ 23 in
                 let sgn := if s =? 1 then -1 else 1 in
                 match elevation with
                 | Finite q =>
                     e < 255 /\ ~ (s = 1 /\ e = 0 /\ m = 0) /\ Qred q = q /\
                     if e =? 0
                     then (q * inject_Z (2 ^ 149) == inject_Z (sgn * m))%Q
                     else (q * inject_Z (2 ^ 150)
                           == inject_Z (sgn * (2 ^ 23 + m) * 2 ^ e))%Q
                 | NegZero => s = 1 /\ e = 0 /\ m = 0
                 | Infinity negative =>
                     e = 255 /\ m = 0 /\ negative = (s =? 1)
                 | NaN => e = 255 /\ m <> 0
                 end)
              (features lyr) rows)) /\
struct_unpack_h (Some [x01; x00]) = inr 1 /\
struct_unpack_f LittleEndian (Some [x00; x00; x80; x3f]) = inr (Finite 1) /\
struct_unpack_f BigEndian (Some [x3f; x80; x00; x00]) = inr (Finite 1).
Proof.
intros Hr Hb Hinv. cbv zeta.
split; [|split; [|repeat split; vm_compute; reflexivity]].
- intros points_list.
  rewrite (sampleRasterFromPointsList_open _ _ _ _ _ Hr Hb), Hinv.
  set (body := list_body _ (Some reverse) band). split.
  + intros Hall.
    destruct (Forall_yields body points_list) as [rows Hrows].
    { eapply Forall_impl; [exact Hall|].
      intros q (b0 & b1 & Hread). eexists. apply list_body_yields.
      cbv zeta. exists b0, b1. split; [exact Hread | reflexivity]. }
    exists rows. now rewrite (for_each_ok _ _ _ _ Hrows).
  + intros rows Hrows.
    destruct (for_each_run body points_list []) as (n & _ & _ & Hres).
    rewrite Hrows in Hres. destruct Hres as (_ & rows' & -> & HF). simpl.
    eapply Forall2_impl; [exact HF|].
    intros p row Hy. apply list_body_yields in Hy. cbv zeta in Hy.
    destruct Hy as (b0 & b1 & Hread & ->).
    exists b0, b1, (int16_le b0 b1).
    split; [exact Hread|]. split; [reflexivity|].
    split; [apply int16_le_range|].
    rewrite int16_le_arith. cbv zeta. fold (byte_val b0) (byte_val b1).
    destruct (byte_val b0 + 256 * byte_val b1 <? 32768).
    * now rewrite Z.sub_diag.
    * replace (byte_val b0 + 256 * byte_val b1 - 65536
               - (byte_val b0 + 256 * byte_val b1)) with (-1 * 65536) by lia.
      apply Z.mod_mul. discriminate.
- intros host point_file lyr pointSR Hl Hsr.
  rewrite (rasterValuesAtPoints_open _ _ _ _ _ _ _ _ Hr Hb Hl Hsr), Hinv.
  set (body := vector_body host _ (Some reverse) band). split.
  + intros Hall.
    destruct (Forall_yields body (features lyr)) as [rows Hrows].
    { eapply Forall_impl; [exact Hall|].
      intros q (b0 & b1 & b2 & b3 & Hread). eexists. apply vector_body_yields.
      cbv zeta. exists b0, b1, b2, b3. split; [exact Hread | reflexivity]. }
    exists rows. now rewrite (for_each_ok _ _ _ _ Hrows).
  + intros rows Hrows.
    destruct (for_each_run body (features lyr) []) as (n & _ & _ & Hres).
    rewrite Hrows in Hres. destruct Hres as (_ & rows' & -> & HF). simpl.
    eapply Forall2_impl; [exact HF|].
    intros f row Hy. apply vector_body_yields in Hy. cbv zeta in Hy.
    destruct Hy as (b0 & b1 & b2 & b3 & Hread & ->).
    exists b0, b1, b2, b3, (binary32_value (word32 host b0 b1 b2 b3)).
    split; [exact Hread|]. split; [reflexivity|].
    pose proof (binary32_value_denotes _ (word32_range host b0 b1 b2 b3)) as Hd.
    set (v := binary32_value _) in *.
    rewrite word32_arith in Hd. exact Hd.
Qed.
End Decoding.

Lemma pixel_bytes_decoded_per_path_witness :
  let val (b : byte) := Z.of_N (Byte.to_N b) in
  let rows :=
    [[PyInt 0; PyFloat (Finite 0); PyFloat (Finite 0); PyInt (-1)];
     [PyInt 1; PyFloat (Finite 0); PyFloat (Finite 1); PyInt (-32768)]] in
  let pix p :=
    pixel_of_point (@CoordinateTransformation Demo.osr 3857 3857)
                   Demo.unit_pixels (feature1 p) (feature2 p) in
  ReadRaster Demo.signed_band 0 0 = Some [xff; xff] /\
  ReadRaster Demo.signed_band 1 0 = Some [x00; x80] /\
  snd (@sampleRasterFromPointsList Demo.osr Demo.W_signed "signed.tif"
         Demo.row_points) = inr rows /\
  Forall2 (fun p row => exists (b0 b1 : byte) (elevation : Z),
             ReadRaster Demo.signed_band (fst (pix p)) (snd (pix p))
               = Some [b0; b1] /\
             row = [feature0 p; PyFloat (Finite (feature1 p));
                    PyFloat (Finite (feature2 p)); PyInt elevation] /\
             -32768 <= elevation < 32768 /\
             (elevation - (val b0 + 256 * val b1)) mod 65536 = 0)
          Demo.row_points rows /\
  snd (@rasterValuesAtPoints Demo.osr LittleEndian Demo.W_signed
         "signed_float.tif" "row.geojson")
  = inr [[PyFloat (Finite 0); PyFloat (Finite 0); PyFloat (Finite (-1 # 2))];
         [PyFloat (Finite 1); PyFloat (Finite 0); PyFloat NegZero];
         [PyFloat (Finite 2); PyFloat (Finite 0);
          PyFloat (Finite (Qred (Qpower 2 (-149))))];
         [PyFloat (Finite 3); PyFloat (Finite 0); PyFloat (Infinity false)]].
Proof.
  cbv zeta.
  assert (Hr : rasters Demo.W_signed !! "signed.tif"%string = Some Demo.signed_dem)
    by (vm_compute; reflexivity).
  assert (Hinv : InvGeoTransform (GetGeoTransform Demo.signed_dem)
                 = Some Demo.unit_pixels) by (vm_compute; reflexivity).
  assert (Hrun : snd (@sampleRasterFromPointsList Demo.osr Demo.W_signed
                        "signed.tif" Demo.row_points)
                 = inr [[PyInt 0; PyFloat (Finite 0); PyFloat (Finite 0);
                         PyInt (-1)];
                        [PyInt 1; PyFloat (Finite 0); PyFloat (Finite 1);
                         PyInt (-32768)]])
    by (vm_compute; reflexivity).
  destruct (@pixel_bytes_decoded_per_path Demo.osr Demo.W_signed "signed.tif"
              Demo.signed_dem Demo.signed_band Demo.unit_pixels Hr eq_refl Hinv)
    as [Hlist _].
  split; [reflexivity|]. split; [reflexivity|]. split; [exact Hrun|].
  split; [exact (proj2 (Hlist Demo.row_points) _ Hrun)|].
  vm_compute. reflexivity.
Defined.
